(** * crawl_datasets: the Numbeo table reader and year-series merge

    A shallow embedding of [src/crawl_datasets.py]: [get_all_links],
    [read_table], [get_data] and the "numbeo" branch of the main block;
    further [extract_zip] and the loop of the main block over the lines of
    the manifest.  The set-up of the working directory before that loop
    (lines 112-129) is not part of the model.

    - A parsed page is a tree of [node]s, as BeautifulSoup exposes it: a
      [Tag] has a name, attributes and contents, a [NavigableString] has no
      name.  [find], [find_all], [children] and [text] follow the library's
      document order.
    - A pandas frame is a record of column labels, index labels and rows of
      cells; a cell is an integer, a float or a text.
    - A Python exception is a value of [exn]; a function that may raise
      returns [result].  The code that performs requests runs in a small
      monad that also keeps the list of the URLs that were requested.
    - What the Python runtime and pandas decide about number syntax
      ([int(...)] on a string, the parsing inside [pd.to_numeric]) is a
      parameter of the development; [Ref] gives one instance to run the model
      with. *)

From Stdlib Require Import String Ascii List ZArith Lia Bool Arith DecimalString.
Import ListNotations.
Open Scope string_scope.
Open Scope list_scope.

Set Implicit Arguments.
Set Warnings "-register-all".

(** ** Exceptions and results *)

Inductive exn : Type :=
| AttributeError      (* attribute access on None *)
| IndexError          (* list index out of range *)
| KeyError            (* missing dictionary key *)
| ValueError          (* pandas / int(): bad shape, nothing to concatenate, bad literal *)
| TypeError           (* pd.to_numeric on something that is not one-dimensional *)
| RequestException    (* requests.get failed *)
| MixedColumns.       (* pd.concat of frames whose column lists differ: not modelled *)

Inductive result (A : Type) : Type :=
| Ok (a : A)
| Raise (e : exn).

Arguments Ok {A} a.
Arguments Raise {A} e.

Definition bind {A B : Type} (r : result A) (k : A -> result B) : result B :=
  match r with
  | Ok a => k a
  | Raise e => Raise e
  end.

Declare Scope result_scope.
Delimit Scope result_scope with result.
Notation "x <- r ;; k" := (bind r (fun x => k))
  (at level 61, r at next level, right associativity) : result_scope.

(** ** Strings, the way the program uses them *)

Module Str.

(** [prefix p s]: [s.startswith(p)]. *)
Fixpoint prefix (p s : string) : bool :=
  match p, s with
  | EmptyString, _ => true
  | String a p', String b s' => Ascii.eqb a b && prefix p' s'
  | String _ _, EmptyString => false
  end.

(** [contains sub s]: Python's [sub in s]. *)
Fixpoint contains (sub s : string) : bool :=
  prefix sub s ||
  match s with
  | EmptyString => false
  | String _ s' => contains sub s'
  end.

(** [split sep s]: Python's [s.split(sep)] for a separator of one
    character.  The list is never empty. *)
Fixpoint split (sep : ascii) (s : string) : list string :=
  match s with
  | EmptyString => [EmptyString]
  | String c s' =>
      if Ascii.eqb c sep then EmptyString :: split sep s'
      else match split sep s' with
           | [] => [String c EmptyString]
           | w :: ws => String c w :: ws
           end
  end.

(** [l[-1]] and [l[0]] on a list of strings. *)
Definition last_item (l : list string) : result string :=
  match rev l with
  | [] => Raise IndexError
  | x :: _ => Ok x
  end.

Definition first_item (l : list string) : result string :=
  match l with
  | [] => Raise IndexError
  | x :: _ => Ok x
  end.

(** [sep.join(l)]. *)
Fixpoint join (sep : ascii) (l : list string) : string :=
  match l with
  | [] => EmptyString
  | [w] => w
  | w :: ws => w ++ String sep (join sep ws)
  end.

(** [str(i)] for an integer. *)
Definition of_Z (z : Z) : string := NilZero.string_of_int (Z.to_int z).

(** The character [c] occurs in [s]. *)
Fixpoint mem (c : ascii) (s : string) : bool :=
  match s with
  | EmptyString => false
  | String a s' => Ascii.eqb a c || mem c s'
  end.

End Str.

(** ** Parsed markup (BeautifulSoup) *)

Module Soup.

(** A node of the parsed page.  [classes] is the value of the [class]
    attribute, which the library keeps as a list; [attrs] holds the other
    attributes.  Strings are plain text: comments and the other special
    strings of the library, which [text] would leave out, are not part of
    the model. *)
Inductive node : Type :=
| NavigableString (s : string)
| Tag (name : string) (classes : list string)
      (attrs : list (string * string)) (contents : list node).

(** [n.name]: [None] for a string. *)
Definition name (n : node) : option string :=
  match n with
  | NavigableString _ => None
  | Tag nm _ _ _ => Some nm
  end.

(** [n.children]: the direct contents, in order.  The program asks for
    the children of tags only. *)
Definition children (n : node) : list node :=
  match n with
  | NavigableString _ => []
  | Tag _ _ _ cs => cs
  end.

(** [n.text]: every string below [n], concatenated in document order. *)
Fixpoint text (n : node) : string :=
  match n with
  | NavigableString s => s
  | Tag _ _ _ cs =>
      (fix texts (l : list node) : string :=
         match l with
         | [] => EmptyString
         | c :: l' => String.append (text c) (texts l')
         end) cs
  end.

(** [descendants n]: every node strictly below [n], in document order. *)
Fixpoint descendants (n : node) : list node :=
  match n with
  | NavigableString _ => []
  | Tag _ _ _ cs =>
      (fix below (l : list node) : list node :=
         match l with
         | [] => []
         | c :: l' => c :: descendants c ++ below l'
         end) cs
  end.

Definition has_name (nm : string) (n : node) : bool :=
  match name n with
  | Some x => String.eqb x nm
  | None => false
  end.

Definition has_class (c : string) (n : node) : bool :=
  match n with
  | NavigableString _ => false
  | Tag _ cls _ _ => existsb (String.eqb c) cls
  end.

(** [n.findAll(nm)]. *)
Definition find_all (nm : string) (n : node) : list node :=
  filter (has_name nm) (descendants n).

(** [n.find(nm)], also written [n.nm]: the first match or [None]. *)
Definition find (nm : string) (n : node) : option node :=
  List.find (has_name nm) (descendants n).

(** [n.find(class_ = c)]. *)
Definition find_class (c : string) (n : node) : option node :=
  List.find (has_class c) (descendants n).

(** [n.attrs[k]]. *)
Fixpoint lookup (k : string) (l : list (string * string)) : option string :=
  match l with
  | [] => None
  | (k', v) :: l' => if String.eqb k' k then Some v else lookup k l'
  end.

Definition attr (k : string) (n : node) : result string :=
  match n with
  | NavigableString _ => Raise AttributeError
  | Tag _ _ ats _ =>
      match lookup k ats with
      | Some v => Ok v
      | None => Raise KeyError
      end
  end.

(** Attribute access on a value that may be [None]. *)
Definition deref (o : option node) : result node :=
  match o with
  | Some n => Ok n
  | None => Raise AttributeError
  end.

(** The nodes of a list that are tags ([x.name != None]). *)
Definition is_tag (n : node) : bool :=
  match name n with
  | Some _ => true
  | None => false
  end.

End Soup.

(** ** Data frames (pandas) and arrays (numpy) *)

Module Pandas.

Section Frames.

(** The carrier of floating-point values and the conversion of an
    integer to it. *)
Variable float : Type.
Variable float_of_int : Z -> float.

(** What a number parsed from a text is: pandas reads an integer or a
    float. *)
Inductive number : Type :=
| NInt (z : Z)
| NFloat (f : float).

(** The parser [pd.to_numeric] applies to one text of a column. *)
Variable to_number : string -> option number.

(** A cell of a frame. *)
Inductive value : Type :=
| VInt (z : Z)
| VFloat (f : float)
| VStr (s : string).

(** An element of the Python list [data_as_list]: cell texts, and the
    integer rank written at index 0. *)
Inductive pyobj : Type :=
| PyInt (z : Z)
| PyStr (s : string).

Record DataFrame : Type := mkFrame {
  columns : list string;
  index : list Z;
  values : list (list value)
}.


(** [np.array(l)]: a list of integers stays an integer array; as soon as
    one element is a text every element becomes its text. *)
Definition is_int (o : pyobj) : bool :=
  match o with
  | PyInt _ => true
  | PyStr _ => false
  end.

Definition np_array (l : list pyobj) : list value :=
  if forallb is_int l
  then map (fun o => match o with PyInt z => VInt z | PyStr s => VStr s end) l
  else map (fun o => match o with
                     | PyInt z => VStr (Str.of_Z z)
                     | PyStr s => VStr s
                     end) l.

(** [pd.DataFrame(a.reshape(1, -1), columns = cols)]: one row, index 0;
    the number of labels has to be the width of the row. *)
Definition frame_of_row (row : list value) (cols : list string)
  : result DataFrame :=
  if Nat.eqb (length row) (length cols)
  then Ok (mkFrame cols [0%Z] [row])
  else Raise ValueError.

(** [pd.concat(frames)]: rows and index labels one frame after the
    other.  Nothing to concatenate is an error.  The program only ever
    concatenates frames that carry one list of column labels; the
    alignment pandas does otherwise is not modelled and reported as
    [MixedColumns]. *)
Definition same_columns (f g : DataFrame) : bool :=
  if list_eq_dec string_dec (columns f) (columns g) then true else false.

Definition concat (frames : list DataFrame) : result DataFrame :=
  match frames with
  | [] => Raise ValueError
  | f :: _ =>
      if forallb (same_columns f) frames
      then Ok (mkFrame (columns f)
                       (flat_map index frames)
                       (flat_map values frames))
      else Raise MixedColumns
  end.

(** [df.reset_index(drop = True)]. *)
Definition reset_index (df : DataFrame) : DataFrame :=
  mkFrame (columns df)
          (map Z.of_nat (seq 0 (length (values df))))
          (values df).

(** The cells at position [j], one per row. *)
Definition cell (j : nat) (row : list value) : value :=
  nth j row (VStr EmptyString).

Definition column (j : nat) (df : DataFrame) : list value :=
  map (cell j) (values df).

(** [df[col]]: a series when one column carries the label, a frame when
    several do, [KeyError] when none does. *)
Inductive selection : Type :=
| Series (s : list value)
| SubFrame (width : nat).

Fixpoint positions (col : string) (cols : list string) (j : nat) : list nat :=
  match cols with
  | [] => []
  | c :: cols' =>
      if String.eqb c col then j :: positions col cols' (S j)
      else positions col cols' (S j)
  end.

Definition getitem (df : DataFrame) (col : string) : result selection :=
  match positions col (columns df) 0 with
  | [] => Raise KeyError
  | [j] => Ok (Series (column j df))
  | js => Ok (SubFrame (length js))
  end.

(** [df[col] = s] for a series [s] over the index of [df]: the cells of
    every column labelled [col] are replaced; a label that is not there
    yet becomes a new last column. *)
Definition set_cells (col : string) (cols : list string)
           (row : list value) (v : value) : list value :=
  map (fun lx => if String.eqb (fst lx) col then v else snd lx)
      (combine cols row).

Definition setitem (df : DataFrame) (col : string) (s : list value)
  : DataFrame :=
  if existsb (String.eqb col) (columns df)
  then mkFrame (columns df) (index df)
               (map (fun rv => set_cells col (columns df) (fst rv) (snd rv))
                    (combine (values df) s))
  else mkFrame (columns df ++ [col]) (index df)
               (map (fun rv => fst rv ++ [snd rv]) (combine (values df) s)).

(** [df[col] = v] for a scalar [v]: the same value in every row. *)
Definition setitem_scalar (df : DataFrame) (col : string) (v : value)
  : DataFrame :=
  setitem df col (map (fun _ => v) (values df)).

(** [pd.to_numeric(s, errors = 'ignore')] on a series.  Every cell is
    read as a number (a cell that is a number already is one); when one
    cell cannot be read the series comes back as it was.  Integers only
    give an integer series, otherwise every cell is a float. *)
Definition read_cell (v : value) : option number :=
  match v with
  | VInt z => Some (NInt z)
  | VFloat f => Some (NFloat f)
  | VStr s => to_number s
  end.

Fixpoint read_cells (s : list value) : option (list number) :=
  match s with
  | [] => Some []
  | v :: s' =>
      match read_cell v, read_cells s' with
      | Some n, Some ns => Some (n :: ns)
      | _, _ => None
      end
  end.

Definition is_NInt (n : number) : bool :=
  match n with
  | NInt _ => true
  | NFloat _ => false
  end.

Definition as_float (n : number) : float :=
  match n with
  | NInt z => float_of_int z
  | NFloat f => f
  end.

Definition numeric_cells (ns : list number) : list value :=
  if forallb is_NInt ns
  then map (fun n => match n with NInt z => VInt z | NFloat f => VFloat f end) ns
  else map (fun n => VFloat (as_float n)) ns.

Definition to_numeric_series (s : list value) : list value :=
  match read_cells s with
  | Some ns => numeric_cells ns
  | None => s
  end.

(** On a frame [pd.to_numeric] raises, whatever [errors] is. *)
Definition to_numeric (sel : selection) : result (list value) :=
  match sel with
  | Series s => Ok (to_numeric_series s)
  | SubFrame _ => Raise TypeError
  end.

End Frames.

Arguments VInt {float} z.
Arguments VStr {float} s.
Arguments NInt {float} z.

End Pandas.

(** ** A reference instance of the number syntax

    Plain decimal literals: an optional sign and digits for an integer, the
    same with one point for a float, which is kept as the pair of its digits
    and the count of digits behind the point. *)

Module Ref.

Definition float : Type := (Z * nat)%type.

Definition float_of_int (z : Z) : float := (z, 0).

Definition digit (c : ascii) : option Z :=
  let n := nat_of_ascii c in
  if ((48 <=? n)%nat && (n <=? 57)%nat)%bool then Some (Z.of_nat (n - 48)) else None.

(** The value of a string of digits, read after the digits [acc]. *)
Fixpoint digits (s : string) (acc : Z) : option Z :=
  match s with
  | EmptyString => Some acc
  | String c s' =>
      match digit c with
      | Some d => digits s' (10 * acc + d)
      | None => None
      end
  end.

Definition unsigned (s : string) : option Z :=
  match s with
  | EmptyString => None
  | _ => digits s 0
  end.

Definition py_int (s : string) : option Z :=
  match s with
  | String "-" s' => option_map Z.opp (unsigned s')
  | String "+" s' => unsigned s'
  | _ => unsigned s
  end.

Definition to_number (s : string) : option (Pandas.number float) :=
  match py_int s with
  | Some z => Some (Pandas.NInt z)
  | None =>
      match Str.split "." s with
      | [a; b] =>
          match py_int (a ++ b)%string, unsigned b with
          | Some z, Some _ => Some (Pandas.NFloat (z, String.length b))
          | _, _ => None
          end
      | _ => None
      end
  end.

End Ref.

(** ** The program *)

Import Soup Pandas.
Local Open Scope result_scope.

(** Lines 22-28: the loop that collects the values of the year options. *)
Fixpoint collect_years (options : list node) (years : list string)
  : result (list string) :=
  match options with
  | [] => Ok years
  | raw_year :: rest =>
      if negb (Str.contains "Mid-Year" (text raw_year))
      then value <- attr "value" raw_year ;;
           collect_years rest (years ++ [value])
      else collect_years rest years
  end.

(** The f-string of line 30. *)
Definition year_link (link year : string) : string :=
  (link ++ "?title=" ++ year)%string.

Definition get_all_links (link : string) (html : node) : result (list string) :=
  form <- deref (find_class "changePageForm" html) ;;
  years <- collect_years (find_all "option" form) [] ;;
  Ok (map (year_link link) years).

(** ** The data directory and zip archives

    The working directory of the loop over the manifest is a finite map from
    file names to contents.  [os.rename] is the POSIX one, which replaces an
    existing destination.  An archive is the list of its members in the order
    of the archive, each a name and a content. *)

Module Files.

Inductive failure : Type :=
| Exn (e : exn)         (* one of the exceptions of the crawler proper *)
| FileNotFoundError     (* open, os.rename or os.remove on a missing file *)
| BadZipFile            (* zipfile.ZipFile on something that is no archive *)
| NestedPath.           (* a member whose name has a directory part: not modelled *)

Inductive outcome (A : Type) : Type :=
| Done (a : A)
| Failed (f : failure).

Arguments Done {A} a.
Arguments Failed {A} f.

Definition dir : Type := list (string * string).

(** The content of the file [name], if there is one. *)
Fixpoint read (name : string) (d : dir) : option string :=
  match d with
  | [] => None
  | (n, c) :: d' => if String.eqb n name then Some c else read name d'
  end.

Definition remove (name : string) (d : dir) : dir :=
  filter (fun e => negb (String.eqb (fst e) name)) d.

(** [open(name, "wb").write(content)]. *)
Definition write (name content : string) (d : dir) : dir :=
  (name, content) :: remove name d.

(** [os.listdir()]. *)
Definition listdir (d : dir) : list string := map fst d.

(** [name in os.listdir()]. *)
Definition listed (name : string) (d : dir) : bool :=
  existsb (String.eqb name) (listdir d).

(** [os.rename(src, dst)]. *)
Definition rename (src dst : string) (d : dir) : outcome unit * dir :=
  match read src d with
  | None => (Failed FileNotFoundError, d)
  | Some c =>
      if String.eqb src dst then (Done tt, d)
      else (Done tt, remove src (write dst c d))
  end.

(** [os.remove(name)]. *)
Definition unlink (name : string) (d : dir) : outcome unit * dir :=
  match read name d with
  | None => (Failed FileNotFoundError, d)
  | Some _ => (Done tt, remove name d)
  end.

(** [s.endswith(suf)]. *)
Definition endswith (suf s : string) : bool :=
  (String.length suf <=? String.length s)%nat &&
  String.eqb (substring (String.length s - String.length suf)
                        (String.length suf) s) suf.

(** [s[:-n]]: all but the last [n] characters, nothing when [s] is
    shorter. *)
Definition drop_last (n : nat) (s : string) : string :=
  substring 0 (String.length s - n) s.

(** The member that [archive.extract(name)] writes: when several members
    carry the name, the last one of the archive. *)
Definition member (name : string) (members : list (string * string))
  : option string :=
  read name (rev members).

(** The test of line 102 on a member name. *)
Definition api_csv (f : string) : bool :=
  Str.prefix "API_" f && endswith ".csv" f.

Section Zip.

(** What [zipfile.ZipFile] reads in the content of a file: the members, or
    nothing when the content is no archive. *)
Variable unzip : string -> option (list (string * string)).

(** Lines 99-108. *)
Definition extract_zip (filename : string) (d : dir) : outcome unit * dir :=
  match read filename d with
  | None => (Failed FileNotFoundError, d)
  | Some bytes =>
      match unzip bytes with
      | None => (Failed BadZipFile, d)
      | Some archive =>
          match filter api_csv (map fst archive) with
          | [] => (Failed (Exn IndexError), d)
          | file :: _ =>
              if Str.mem "/" file then (Failed NestedPath, d)
              else
                match member file archive with
                | None => (Failed (Exn KeyError), d)
                | Some content =>
                    let d := write file content d in
                    match rename file (drop_last 4 filename ++ ".csv") d with
                    | (Failed f, d) => (Failed f, d)
                    | (Done _, d) => unlink filename d
                    end
                end
          end
      end
  end.

End Zip.

(** What the loop over the manifest acts on: the files of the data
    directory, the URLs requested so far, the links opened in the browser,
    the lines printed and the lines written to [github_links.txt]. *)
Record world : Type := mkWorld {
  files : dir;
  requested : list string;
  browser : list string;
  stdout : list string;
  gitlinks : list string
}.

End Files.

(** ** Pages to run the program on *)

Module Example.

Definition el (nm : string) (contents : list node) : node :=
  Tag nm [] [] contents.

Definition td (s : string) : node := el "td" [NavigableString s].
Definition th (s : string) : node := el "th" [NavigableString s].
Definition nl : node := NavigableString " ".

Definition option_tag (value label : string) : node :=
  Tag "option" [] [("value", value)] [NavigableString label].

(** The control that selects the year, with a mid-year entry. *)
Definition form : node :=
  Tag "form" ["changePageForm"] []
      [el "select" [option_tag "2020" "2020";
                    option_tag "2019-mid" "2019 Mid-Year";
                    option_tag "2019" "2019"]].

(** The page chrome: the first table of a page. *)
Definition chrome : node :=
  el "table" [el "tr" [td "Numbeo"]].

Definition ranking (head : list node) (body : list node) : node :=
  el "table" [el "thead" [el "tr" head]; el "tbody" body].

Definition cities : node :=
  ranking [nl; th "Rank"; nl; th "City"; nl; th "Index"; nl]
          [nl; el "tr" [nl; td "9"; td "Zurich"; td "120.5"]; nl;
           el "tr" [td "1"; td "Oslo"; td "110.0"]; nl].

Definition page (table : node) : node :=
  el "html" [el "body" [form; chrome; table]].

Definition base : string := "https://www.numbeo.com/cost-of-living/rankings.jsp".

(** A site that serves the page [p] at [base] and nothing elsewhere. *)
Definition serve (p : node) (url : string) : option node :=
  if String.eqb url base then Some p else None.

Definition site (table : node) : string -> option node :=
  serve (page table).

(** A page with the page chrome as its only table. *)
Definition bare : node := el "html" [el "body" [form; chrome]].

(** The year links of [form]. *)
Definition links : list string :=
  ["https://www.numbeo.com/cost-of-living/rankings.jsp?title=2020";
   "https://www.numbeo.com/cost-of-living/rankings.jsp?title=2019"].


Definition cities_frame : Pandas.DataFrame Ref.float :=
  Pandas.mkFrame ["Rank"; "City"; "Index"] [0%Z; 1%Z]
    [[Pandas.VInt 1; Pandas.VStr "Zurich"; Pandas.VFloat (1205%Z, 1)];
     [Pandas.VInt 2; Pandas.VStr "Oslo"; Pandas.VFloat (1100%Z, 1)]].

(** [cities_frame] with the year [y] attached. *)
Definition cities_in (y : Z) : Pandas.DataFrame Ref.float :=
  Pandas.mkFrame ["Rank"; "City"; "Index"; "Year"] [0%Z; 1%Z]
    [[Pandas.VInt 1; Pandas.VStr "Zurich"; Pandas.VFloat (1205%Z, 1);
      Pandas.VInt y];
     [Pandas.VInt 2; Pandas.VStr "Oslo"; Pandas.VFloat (1100%Z, 1);
      Pandas.VInt y]].

(** A table whose header already has a column labelled Year. *)
Definition dated : node :=
  ranking [th "Rank"; th "Year"; th "City"]
          [el "tr" [td "1"; td "1999"; td "Oslo"]].

(** A ragged table: the second row has a cell too many. *)
Definition ragged : node :=
  ranking [th "Rank"; th "City"]
          [el "tr" [td "1"; td "Oslo"];
           el "tr" [td "2"; td "Bern"; td "extra"]].

(** A table without rows. *)
Definition empty_body : node :=
  ranking [th "Rank"; th "City"] [nl].

(** A page without the year control. *)
Definition no_control : node := el "html" [el "body" [chrome; cities]].

(** A year control with an option that carries no value, and one that
    offers mid-year entries only. *)
Definition valueless : node :=
  el "html"
     [Tag "form" ["changePageForm"] []
          [Tag "option" [] [] [NavigableString "2021"]]].

Definition mid_years : node :=
  Tag "form" ["changePageForm"] []
      [option_tag "2020-mid" "2020 Mid-Year";
       option_tag "2019-mid" "2019 Mid-Year"].

Definition mid_page : node := el "html" [el "body" [mid_years; chrome; cities]].

(** A table with a header text used twice. *)
Definition twins : node :=
  ranking [th "Rank"; th "City"; th "City"]
          [el "tr" [td "1"; td "Oslo"; td "Bergen"]].

(** A World Bank link and two downloads: an archive with two members named
    API_....csv, and one with none. *)
Definition bank : string := "https://api.worldbank.org/v2/en/indicator/gdp".
Definition bank_bare : string := "https://api.worldbank.org/v2/en/indicator/pop".

Definition download (url : string) : option string :=
  if String.eqb url bank then Some "PK-gdp"
  else if String.eqb url bank_bare then Some "PK-pop"
  else None.

Definition unzip (bytes : string) : option (list (string * string)) :=
  if String.eqb bytes "PK-gdp"
  then Some [("Metadata_Country.csv", "meta");
             ("API_GDP.csv", "gdp per year");
             ("API_GDP_old.csv", "older")]
  else if String.eqb bytes "PK-pop"
  then Some [("readme.txt", "nothing here")]
  else None.

Definition to_csv (df : Pandas.DataFrame Ref.float) : string := "csv".

(** An empty data directory, and one that has [gdp.csv] already. *)
Definition fresh : Files.world := Files.mkWorld [] [] [] [] [].

Definition stocked : Files.world :=
  Files.mkWorld [("gdp.csv", "kept")] [] [] [] [].

End Example.

(** An option that is kept: its label does not contain the mid-year
    marker. *)
Definition full_year (o : node) : bool :=
  negb (Str.contains "Mid-Year" (text o)).

Section Crawl.

Variable float : Type.
Variable float_of_int : Z -> float.
Variable to_number : string -> option (number float).

(** [int(s)] on a text: the integer, or nothing where Python raises
    [ValueError]. *)
Variable py_int : string -> option Z.

(** The pages behind the URLs: what [requests.get] followed by the parser
    gives, or nothing when the request fails. *)
Variable web : string -> option node.

(** *** read_table *)

(** Lines 42-46 and 55-58: the texts of the tags among the children. *)
Definition tag_texts (l : list node) : list string :=
  fold_left (fun acc con => if is_tag con then acc ++ [text con] else acc)
            l [].

(** Line 61, [data_as_list[0] = i]. *)
Definition set_first (l : list pyobj) (x : pyobj) : result (list pyobj) :=
  match l with
  | [] => Raise IndexError
  | _ :: l' => Ok (x :: l')
  end.

(** Lines 52-63: one frame per row of the body, [i] counting the rows. *)
Fixpoint body_loop (columns : list string) (rows : list node) (i : Z)
         (dataframes : list (DataFrame float)) : result (list (DataFrame float)) :=
  match rows with
  | [] => Ok dataframes
  | country :: rest =>
      if is_tag country
      then
        let data_as_list := map PyStr (tag_texts (children country)) in
        let i := (i + 1)%Z in
        data_as_list <- set_first data_as_list (PyInt i) ;;
        df <- frame_of_row (np_array float data_as_list) columns ;;
        body_loop columns rest i (dataframes ++ [df])
      else body_loop columns rest i dataframes
  end.

(** Lines 41-65: the frame of texts, before any column is converted. *)
Definition assemble_table (table : node) : result (DataFrame float) :=
  thead <- deref (find "thead" table) ;;
  tr <- deref (find "tr" thead) ;;
  let columns := tag_texts (children tr) in
  tbody <- deref (find "tbody" table) ;;
  dataframes <- body_loop columns (children tbody) 0 [] ;;
  data <- concat dataframes ;;
  Ok (reset_index data).

(** Lines 67-68: the loop over the labels. *)
Fixpoint convert_columns (cols : list string) (data : DataFrame float)
  : result (DataFrame float) :=
  match cols with
  | [] => Ok data
  | col :: rest =>
      sel <- getitem data col ;;
      s <- to_numeric float_of_int to_number sel ;;
      convert_columns rest (setitem data col s)
  end.

Definition read_table (table : node) : result (DataFrame float) :=
  data <- assemble_table table ;;
  convert_columns (columns data) data.

(** *** Requests

    A computation that performs requests takes the URLs requested so far
    and returns them with the new ones added behind. *)

Definition IO (A : Type) : Type := list string -> result A * list string.

Definition io_ret {A} (a : A) : IO A := fun log => (Ok a, log).

Definition io_bind {A B} (m : IO A) (k : A -> IO B) : IO B :=
  fun log =>
    match m log with
    | (Ok a, log') => k a log'
    | (Raise e, log') => (Raise e, log')
    end.

Definition io_lift {A} (r : result A) : IO A := fun log => (r, log).

(** [BeautifulSoup(requests.get(url).content, "html.parser")]. *)
Definition requests_get (url : string) : IO node :=
  fun log =>
    (match web url with
     | Some html => Ok html
     | None => Raise RequestException
     end, log ++ [url]).

(** *** get_data *)

Definition get_data (link : string) : IO (DataFrame float) :=
  io_bind (requests_get link) (fun html =>
  let tables := find_all "table" html in
  match nth_error tables 1 with
  | None => io_lift (Raise IndexError)
  | Some table => io_lift (read_table table)
  end).

(** *** The numbeo branch of the main block, lines 149-163 *)

Definition py_int_result (s : string) : result Z :=
  match py_int s with
  | Some z => Ok z
  | None => Raise ValueError
  end.

(** Line 160: [int(l.split("=")[-1].split("-")[0])]. *)
Definition year_of (l : string) : result Z :=
  seg <- Str.last_item (Str.split "=" l) ;;
  seg <- Str.first_item (Str.split "-" seg) ;;
  py_int_result seg.

(** Lines 156-161. *)
Fixpoint year_loop (link : string) (year_links : list string)
         (data : list (DataFrame float)) : IO (list (DataFrame float)) :=
  match year_links with
  | [] => io_ret data
  | l :: rest =>
      io_bind (get_data link) (fun raw_data =>
      io_bind (io_lift (year_of l)) (fun year =>
      let raw_data := setitem_scalar raw_data "Year" (VInt year) in
      year_loop link rest (data ++ [raw_data])))
  end.

(** Lines 149-163: the frame that is written to the CSV file. *)
Definition numbeo_series (link : string) : IO (DataFrame float) :=
  io_bind (requests_get link) (fun html =>
  io_bind (io_lift (get_all_links link html)) (fun year_links =>
  io_bind (year_loop link year_links []) (fun data =>
  io_lift (concat data)))).

(** *** Vocabulary of the statements *)

(** What lines 55-63 make of one row of the body that is given the
    rank [i]. *)
Definition row_frame (columns : list string) (i : Z) (country : node)
  : result (DataFrame float) :=
  data_as_list <- set_first (map PyStr (tag_texts (children country)))
                            (PyInt i) ;;
  frame_of_row (np_array float data_as_list) columns.

(** The list [l] with the ranks [i], [i + 1], ... attached. *)
Fixpoint ranked (i : Z) (l : list node) : list (Z * node) :=
  match l with
  | [] => []
  | x :: l' => (i, x) :: ranked (i + 1) l'
  end.

(** Every row of the frame has one cell per column label. *)
Definition rectangular (df : DataFrame float) : Prop :=
  Forall (fun row => length row = length (columns df)) (values df).


(** What [get_data] returns for a link, the requests left aside. *)
Definition page_data (link : string) : result (DataFrame float) :=
  match web link with
  | None => Raise RequestException
  | Some html =>
      match nth_error (find_all "table" html) 1 with
      | None => Raise IndexError
      | Some table => read_table table
      end
  end.

(** The row of cells that a body row with the cell texts [c0 :: rest]
    gives once the rank [i] has replaced [c0]. *)
Definition ranked_row (i : Z) (rest : list string)
  : list (Pandas.value float) :=
  np_array float (PyInt i :: map PyStr rest).

(** The row [row] of the frame comes from the body row [snd ic], which has
    one cell per label of [cols] and the rank [fst ic]. *)
Definition row_of (cols : list string) (ic : Z * node)
           (row : list (Pandas.value float)) : Prop :=
  exists c0 rest,
    tag_texts (children (snd ic)) = c0 :: rest /\
    length (c0 :: rest) = length cols /\
    row = ranked_row (fst ic) rest.

(** What the loop of lines 156-161 makes of one year link [l]: the frame
    read from the page behind [link], with the year of [l] under the label
    Year. *)
Definition year_frame (link l : string) (df : DataFrame float) : Prop :=
  exists raw y,
    page_data link = Ok raw /\
    year_of l = Ok y /\
    df = setitem_scalar raw "Year" (VInt y).

(** [seg] is the part of [l] that line 160 hands to [int]: what follows
    the last "=" of [l] (the whole of [l] when there is none), up to its
    first "-" (to its end when there is none). *)
Definition year_segment (l seg : string) : Prop :=
  exists tail,
    (l = tail \/ exists pre, l = (pre ++ String "=" tail)%string) /\
    Str.mem "=" tail = false /\
    (tail = seg \/ exists rest, tail = (seg ++ String "-" rest)%string) /\
    Str.mem "-" seg = false.

(** The cells of [new] are those of [old], but for the value [v] under
    each label [col] of [cols]. *)
Definition cells_replaced (cols : list string) (col : string)
           (v : Pandas.value float) (old new : list (Pandas.value float))
  : Prop :=
  length new = length old /\
  forall k c, nth_error cols k = Some c ->
              nth_error new k
              = if String.eqb c col then Some v else nth_error old k.

(** The cells are all integers, all floats or all texts: the series has one
    dtype. *)
Definition same_kind (s : list (Pandas.value float)) : Prop :=
  Forall (fun v => exists z, v = VInt z) s \/
  Forall (fun v => exists f, v = VFloat f) s \/
  Forall (fun v => exists t, v = VStr t) s.

(** *** The loop over the manifest, lines 131-175

    [download] is the content that [requests.get] receives for a URL (nothing
    when the request fails), [unzip] reads an archive and [to_csv] is the
    text that [DataFrame.to_csv] writes.  The pause of line 171 leaves no
    trace in the model. *)

Definition newline : ascii := "010"%char.

(** Line 174. *)
Definition gitlink (name : string) : string :=
  ("https://raw.githubusercontent.com/papstchaka/dopp_datasets/master/data/"
   ++ name ++ ".csv" ++ String newline "")%string.

(** Line 169. *)
Definition manual_message (link name : string) : string :=
  ("data not automatically downloadable. Please go to " ++ link
   ++ " and download the dataset manually and rename the downloaded file into "
   ++ name ++ ".csv")%string.

Definition set_files (d : Files.dir) (w : Files.world) : Files.world :=
  Files.mkWorld d (Files.requested w) (Files.browser w) (Files.stdout w)
                (Files.gitlinks w).

Definition set_requested (log : list string) (w : Files.world)
  : Files.world :=
  Files.mkWorld (Files.files w) log (Files.browser w) (Files.stdout w)
                (Files.gitlinks w).

(** Lines 134-172: what is done for one link, by the source it names. *)
Definition fetch_entry (download : string -> option string)
           (unzip : string -> option (list (string * string)))
           (to_csv : DataFrame float -> string)
           (link name : string) (w : Files.world)
  : Files.outcome unit * Files.world :=
  let csv := (name ++ ".csv")%string in
  if Str.contains "worldbank" link then
    if negb (Files.listed csv (Files.files w)) then
      let w := set_requested (Files.requested w ++ [link]) w in
      match download link with
      | None => (Files.Failed (Files.Exn RequestException), w)
      | Some content =>
          let zip := (name ++ ".zip")%string in
          let d := Files.write zip content (Files.files w) in
          let (r, d) := Files.extract_zip unzip zip d in
          (r, set_files d w)
      end
    else (Files.Done tt, w)
  else if Str.contains "oecd" link then
    if negb (Files.listed csv (Files.files w)) then
      let w := set_requested (Files.requested w ++ [link]) w in
      match download link with
      | None => (Files.Failed (Files.Exn RequestException), w)
      | Some content =>
          (Files.Done tt, set_files (Files.write csv content (Files.files w)) w)
      end
    else (Files.Done tt, w)
  else if Str.contains "numbeo" link then
    if negb (Files.listed csv (Files.files w)) then
      match numbeo_series link (Files.requested w) with
      | (Raise e, log) => (Files.Failed (Files.Exn e), set_requested log w)
      | (Ok whole_data, log) =>
          let w := set_requested log w in
          (Files.Done tt,
           set_files (Files.write csv (to_csv whole_data) (Files.files w)) w)
      end
    else (Files.Done tt, w)
  else
    if negb (Files.listed csv (Files.files w)) then
      (Files.Done tt,
       Files.mkWorld (Files.files w) (Files.requested w)
                     (Files.browser w ++ [link])
                     (Files.stdout w ++ [manual_message link name])
                     (Files.gitlinks w))
    else (Files.Done tt, w).

(** Lines 132-175: one line of the manifest. *)
Definition process_entry (download : string -> option string)
           (unzip : string -> option (list (string * string)))
           (to_csv : DataFrame float -> string)
           (raw : string) (w : Files.world)
  : Files.outcome unit * Files.world :=
  match Str.split " " raw with
  | [link; name] =>
      match fetch_entry download unzip to_csv link name w with
      | (Files.Failed f, w) => (Files.Failed f, w)
      | (Files.Done _, w) =>
          (Files.Done tt,
           Files.mkWorld (Files.files w) (Files.requested w)
                         (Files.browser w) (Files.stdout w)
                         (Files.gitlinks w ++ [gitlink name]))
      end
  | _ => (Files.Failed (Files.Exn ValueError), w)
  end.

(** Lines 131-175: the loop; an exception ends it. *)
Fixpoint main_loop (download : string -> option string)
         (unzip : string -> option (list (string * string)))
         (to_csv : DataFrame float -> string)
         (links : list string) (w : Files.world)
  : Files.outcome unit * Files.world :=
  match links with
  | [] => (Files.Done tt, w)
  | raw :: rest =>
      match process_entry download unzip to_csv raw w with
      | (Files.Failed f, w) => (Files.Failed f, w)
      | (Files.Done _, w) => main_loop download unzip to_csv rest w
      end
  end.

(** Lines 123 and 131-175: the loop over the lines of the manifest text. *)
Definition run_manifest (download : string -> option string)
           (unzip : string -> option (list (string * string)))
           (to_csv : DataFrame float -> string)
           (text : string) (w : Files.world)
  : Files.outcome unit * Files.world :=
  main_loop download unzip to_csv (Str.split newline text) w.


Unset Implicit Arguments.
Local Open Scope nat_scope.

(** ** Strings *)

Lemma prefix_iff (p s : string) :
  Str.prefix p s = true <-> exists b, s = (p ++ b)%string.
Proof.
  revert s; induction p as [|a p IH]; intros s; simpl.
  - split; [intros _; now exists s | reflexivity].
  - destruct s as [|b s].
    + split; [discriminate | intros [x Hx]; discriminate].
    + rewrite andb_true_iff, Ascii.eqb_eq, IH. split.
      * intros [-> [x ->]]. now exists x.
      * intros [x Hx]. injection Hx as -> ->. split; [reflexivity | now exists x].
Qed.

Lemma contains_iff (sub s : string) :
  Str.contains sub s = true <-> exists a b, s = (a ++ sub ++ b)%string.
Proof.
  induction s as [|c s IH].
  - cbn [Str.contains]. rewrite orb_false_r, prefix_iff. split.
    + intros [b Hb]. now exists EmptyString, b.
    + intros [a [b Hab]]. destruct a; [now exists b | discriminate].
  - cbn [Str.contains]. rewrite orb_true_iff, prefix_iff, IH. split.
    + intros [[b Hb] | [a [b Hab]]].
      * now exists EmptyString, b.
      * exists (String c a), b. simpl. now rewrite Hab.
    + intros [a [b Hab]]. destruct a as [|c' a].
      * left. now exists b.
      * right. simpl in Hab. injection Hab as _ ->. now exists a, b.
Qed.

Lemma string_length_app (a b : string) :
  String.length (a ++ b) = String.length a + String.length b.
Proof. induction a; simpl; congruence. Qed.

Lemma string_app_assoc (a b c : string) :
  ((a ++ b) ++ c)%string = (a ++ b ++ c)%string.
Proof. induction a; simpl; congruence. Qed.

(** A constructed per-year URL is never the base link. *)
Lemma year_link_neq (link year : string) : year_link link year <> link.
Proof.
  unfold year_link. intros E. apply (f_equal String.length) in E.
  rewrite string_length_app in E. simpl in E. lia.
Qed.

(** ** get_all_links *)

Lemma collect_years_spec (options : list node) :
  (forall o, In o options -> full_year o = true ->
             exists v, attr "value" o = Ok v) ->
  forall years, exists vs,
    collect_years options years = Ok (years ++ vs) /\
    Forall2 (fun o v => attr "value" o = Ok v) (filter full_year options) vs.
Proof.
  induction options as [|o options IH]; intros Hv years.
  - exists []. rewrite app_nil_r. split; [reflexivity | constructor].
  - cbn [collect_years filter]. unfold full_year in *.
    destruct (negb (Str.contains "Mid-Year" (text o))) eqn:Ho.
    + destruct (Hv o (or_introl eq_refl) Ho) as [v Hattr].
      rewrite Hattr. cbn [bind].
      destruct (IH (fun o' Hin => Hv o' (or_intror Hin)) (years ++ [v]))
        as [vs [Hc Hf]].
      exists (v :: vs). rewrite Hc, <- app_assoc. split; [reflexivity|].
      now constructor.
    + apply IH. intros o' Hin. apply Hv. now right.
Qed.

(** C4: when the page has the year control and every full-year option
    carries a value, [get_all_links] returns exactly one URL
    [<base>?title=<value>] for each option whose label does not contain
    "Mid-Year", in the order of the options, and no URL comes from an
    option whose label contains "Mid-Year". *)
Theorem get_all_links_full_years (link : string) (html form : node) :
  find_class "changePageForm" html = Some form ->
  (forall o, In o (find_all "option" form) -> full_year o = true ->
             exists v, attr "value" o = Ok v) ->
  exists links,
    get_all_links link html = Ok links /\
    Forall2 (fun o l => exists v, attr "value" o = Ok v /\
                                  l = (link ++ "?title=" ++ v)%string)
            (filter full_year (find_all "option" form)) links /\
    (forall o, In o (filter full_year (find_all "option" form)) ->
               In o (find_all "option" form) /\
               ~ exists a b, text o = (a ++ "Mid-Year" ++ b)%string) /\
    (forall o, In o (find_all "option" form) ->
               (exists a b, text o = (a ++ "Mid-Year" ++ b)%string) ->
               ~ In o (filter full_year (find_all "option" form))).
Proof.
  intros Hform Hv. unfold get_all_links. rewrite Hform. cbn [deref bind].
  destruct (collect_years_spec _ Hv []) as [vs [Hc Hf]].
  rewrite Hc. cbn [bind app]. eexists. split; [reflexivity|].
  split; [|split].
  - clear Hc. induction Hf as [|o v os vs' Ho _ IH]; cbn [map]; constructor.
    + exists v. now split.
    + exact IH.
  - intros o Ho. apply filter_In in Ho. destruct Ho as [Hin Hk].
    split; [exact Hin|]. intros Hc'. apply contains_iff in Hc'.
    unfold full_year in Hk. now rewrite Hc' in Hk.
  - intros o _ Hc' Ho. apply contains_iff in Hc'.
    apply filter_In in Ho. destruct Ho as [_ Hk].
    unfold full_year in Hk. now rewrite Hc' in Hk.
Qed.

(** ** read_table: the frame of texts *)

Lemma tag_texts_from (l : list node) (acc : list string) :
  fold_left (fun acc con => if is_tag con then acc ++ [text con] else acc)
            l acc
  = acc ++ map text (filter is_tag l).
Proof.
  revert acc; induction l as [|n l IH]; intros acc; simpl.
  - now rewrite app_nil_r.
  - destruct (is_tag n); rewrite IH; [|reflexivity].
    now rewrite <- app_assoc.
Qed.

Lemma tag_texts_filter (l : list node) :
  tag_texts l = map text (filter is_tag l).
Proof. unfold tag_texts. now rewrite tag_texts_from. Qed.

Lemma body_loop_ranked (cols : list string) (rows : list node) :
  forall i acc dfs,
    body_loop cols rows i acc = Ok dfs ->
    exists news,
      dfs = acc ++ news /\
      Forall2 (fun ic df => row_frame cols (fst ic) (snd ic) = Ok df)
              (ranked (i + 1) (filter is_tag rows)) news.
Proof.
  induction rows as [|country rows IH]; intros i acc dfs H.
  - simpl in H. injection H as <-. exists []. rewrite app_nil_r.
    split; [reflexivity | constructor].
  - cbn [body_loop filter] in *. destruct (is_tag country).
    + fold (row_frame cols (i + 1) country) in H.
      destruct (set_first _ _) as [dl|e] eqn:Hs; [|discriminate].
      cbn [bind] in H.
      destruct (frame_of_row _ _) as [df|e] eqn:Hf; [|discriminate].
      cbn [bind] in H. apply IH in H. destruct H as [news [-> HF]].
      exists (df :: news). rewrite <- app_assoc. split; [reflexivity|].
      cbn [ranked]. constructor; [|exact HF].
      unfold row_frame. cbn [fst snd]. rewrite Hs. cbn [bind]. exact Hf.
    + now apply IH.
Qed.

Lemma body_loop_no_rows (cols : list string) (rows : list node) :
  filter is_tag rows = [] ->
  forall i acc, body_loop cols rows i acc = Ok acc.
Proof.
  induction rows as [|country rows IH]; intros Hn i acc; [reflexivity|].
  cbn [body_loop filter] in *. destruct (is_tag country); [discriminate|].
  now apply IH.
Qed.

Lemma np_array_length (l : list pyobj) :
  length (np_array float l) = length l.
Proof. unfold np_array. destruct (forallb is_int l); now rewrite length_map. Qed.

Lemma row_frame_inv (cols : list string) (i : Z) (country : node)
      (df : DataFrame float) :
  row_frame cols i country = Ok df ->
  df = mkFrame cols [0%Z] (values df) /\
  exists row, values df = [row] /\ row_of cols (i, country) row.
Proof.
  unfold row_frame, row_of. cbn [fst snd].
  destruct (tag_texts (children country)) as [|c0 rest]; [discriminate|].
  cbn [map set_first bind]. unfold frame_of_row.
  destruct (Nat.eqb _ _) eqn:E; [|discriminate].
  intros H. injection H as <-. cbn [values]. split; [reflexivity|].
  eexists. split; [reflexivity|]. exists c0, rest.
  apply Nat.eqb_eq in E. rewrite np_array_length in E.
  cbn [length] in *. rewrite length_map in E. repeat split. exact E.
Qed.

Lemma ranked_row_length (i : Z) (rest : list string) :
  length (ranked_row i rest) = S (length rest).
Proof. unfold ranked_row. rewrite np_array_length. simpl. now rewrite length_map. Qed.

Lemma forallb_is_int_texts (rest : list string) :
  forallb is_int (map PyStr rest) = match rest with [] => true | _ => false end.
Proof. destruct rest; reflexivity. Qed.

(** The first cell of a row is its rank: the integer when the row has
    this one cell, its decimal text otherwise. *)
Lemma ranked_row_first (i : Z) (rest : list string) :
  exists v tl, ranked_row i rest = v :: tl /\
               (v = VInt i \/ v = VStr (Str.of_Z i)).
Proof.
  unfold ranked_row, np_array. cbn [forallb is_int andb].
  destruct (forallb is_int (map PyStr rest)); cbn [map];
    eexists; eexists; (split; [reflexivity|]); [now left | now right].
Qed.

Lemma same_columns_refl (f g : DataFrame float) :
  columns g = columns f -> same_columns f g = true.
Proof.
  intros E. unfold same_columns.
  destruct (list_eq_dec string_dec (columns f) (columns g)); congruence.
Qed.

Lemma concat_same_columns (cols : list string) (f : DataFrame float)
      (frames : list (DataFrame float)) :
  Forall (fun g => columns g = cols) (f :: frames) ->
  concat (f :: frames)
  = Ok (mkFrame cols (flat_map (@index float) (f :: frames))
                (flat_map (@values float) (f :: frames))).
Proof.
  intros HF. unfold concat.
  assert (Hc : columns f = cols) by now inversion HF.
  replace (forallb (same_columns f) (f :: frames)) with true.
  - now rewrite Hc.
  - symmetry. apply forallb_forall. intros g Hg.
    apply same_columns_refl. rewrite Forall_forall in HF.
    rewrite (HF g Hg). now symmetry.
Qed.

Lemma row_frames_rows (cols : list string) (l : list (Z * node))
      (news : list (DataFrame float)) :
  Forall2 (fun ic df => row_frame cols (fst ic) (snd ic) = Ok df) l news ->
  Forall (fun g => columns g = cols) news /\
  Forall2 (row_of cols) l (flat_map (@values float) news).
Proof.
  induction 1 as [|ic df l news H _ [IH1 IH2]]; [split; constructor|].
  destruct ic as [i country]. apply row_frame_inv in H.
  destruct H as [Hdf [row [Hv Hrow]]]. split.
  - constructor; [now rewrite Hdf | exact IH1].
  - cbn [flat_map]. rewrite Hv. cbn [app]. now constructor.
Qed.

(** What the frame of texts is made of. *)
Lemma assemble_table_inv (table : node) (raw : DataFrame float) :
  assemble_table table = Ok raw ->
  exists thead tr tbody,
    find "thead" table = Some thead /\
    find "tr" thead = Some tr /\
    find "tbody" table = Some tbody /\
    columns raw = tag_texts (children tr) /\
    index raw = map Z.of_nat (seq 0 (length (values raw))) /\
    Forall2 (row_of (tag_texts (children tr)))
            (ranked 1 (filter is_tag (children tbody))) (values raw).
Proof.
  unfold assemble_table.
  destruct (find "thead" table) as [thead|] eqn:E1; [|discriminate].
  cbn [deref bind].
  destruct (find "tr" thead) as [tr|] eqn:E2; [|discriminate].
  cbn [deref bind].
  destruct (find "tbody" table) as [tbody|] eqn:E3; [|discriminate].
  cbn [deref bind].
  destruct (body_loop _ _ _ _) as [dfs|e] eqn:Hb; [|discriminate].
  cbn [bind]. apply body_loop_ranked in Hb. destruct Hb as [news [-> HF]].
  cbn [app] in *. apply row_frames_rows in HF. destruct HF as [Hc Hr].
  destruct news as [|f news]; [discriminate|].
  rewrite (concat_same_columns _ _ _ Hc). cbn [bind]. intros H. injection H as <-.
  exists thead, tr, tbody. unfold reset_index. cbn [columns index values].
  repeat split; try reflexivity; try assumption.
Qed.

Lemma assemble_table_rectangular (table : node) (raw : DataFrame float) :
  assemble_table table = Ok raw -> rectangular raw.
Proof.
  intros H. apply assemble_table_inv in H.
  destruct H as (thead & tr & tbody & _ & _ & _ & Hc & _ & Hr).
  unfold rectangular. rewrite Hc. clear Hc.
  induction Hr as [|ic row l rows Hrow _ IH]; constructor; [|exact IH].
  destruct Hrow as (c0 & rest & _ & Hl & ->).
  rewrite ranked_row_length. exact Hl.
Qed.

(** ** read_table: the conversion of the columns *)

Lemma positions_notin (c : string) (l : list string) :
  ~ In c l -> forall n, positions c l n = [].
Proof.
  induction l as [|a l IH]; intros Hn n; [reflexivity|].
  cbn [positions]. destruct (String.eqb_spec a c) as [->|_].
  - exfalso. apply Hn. now left.
  - apply IH. intros Hin. apply Hn. now right.
Qed.

Lemma positions_app (c : string) (l1 l2 : list string) :
  forall n, positions c (l1 ++ l2) n
            = positions c l1 n ++ positions c l2 (n + length l1).
Proof.
  induction l1 as [|a l1 IH]; intros n; cbn [app positions length].
  - now rewrite Nat.add_0_r.
  - rewrite IH. replace (S n + length l1) with (n + S (length l1)) by lia.
    now destruct (String.eqb a c).
Qed.

Lemma positions_once (c : string) (done todo : list string) :
  ~ In c done -> ~ In c todo ->
  positions c (done ++ c :: todo) 0 = [length done].
Proof.
  intros H1 H2. rewrite positions_app, (positions_notin _ _ H1).
  cbn [positions app]. rewrite String.eqb_refl, (positions_notin _ _ H2).
  reflexivity.
Qed.

Lemma existsb_label (c : string) (l : list string) :
  existsb (String.eqb c) l = true <-> In c l.
Proof.
  rewrite existsb_exists. split.
  - intros [x [Hin Hx]]. apply String.eqb_eq in Hx. now subst.
  - intros Hin. exists c. split; [exact Hin | apply String.eqb_refl].
Qed.

Lemma set_cells_notin (c : string) (cols : list string) :
  ~ In c cols ->
  forall (row : list (Pandas.value float)) v,
    length row = length cols -> set_cells c cols row v = row.
Proof.
  unfold set_cells.
  induction cols as [|a cols IH]; intros Hn row v Hl;
    destruct row as [|x row]; try discriminate; [reflexivity|].
  cbn [combine map fst snd]. destruct (String.eqb_spec a c) as [->|_].
  - exfalso. apply Hn. now left.
  - f_equal. apply IH; [|now injection Hl].
    intros Hin. apply Hn. now right.
Qed.

Lemma set_cells_at (c : string) (done todo : list string) :
  ~ In c done -> ~ In c todo ->
  forall (row : list (Pandas.value float)) v,
    length row = length (done ++ c :: todo) ->
    exists r1 x r2,
      row = r1 ++ x :: r2 /\ length r1 = length done /\
      set_cells c (done ++ c :: todo) row v = r1 ++ v :: r2.
Proof.
  intros H1 H2. induction done as [|a done IH]; intros row v Hl.
  - destruct row as [|x row]; [discriminate|].
    exists [], x, row. split; [reflexivity|]. split; [reflexivity|].
    unfold set_cells. cbn [app combine map fst snd].
    rewrite String.eqb_refl. f_equal.
    apply (set_cells_notin _ _ H2). now injection Hl.
  - destruct row as [|y row]; [discriminate|].
    destruct (IH (fun Hin => H1 (or_intror Hin)) row v)
      as (r1 & x & r2 & -> & Hr1 & Hs); [now injection Hl|].
    exists (y :: r1), x, r2. split; [reflexivity|].
    split; [cbn [length]; now rewrite Hr1|].
    unfold set_cells in *. cbn [app combine map fst snd].
    destruct (String.eqb_spec a c) as [->|_].
    + exfalso. apply H1. now left.
    + now rewrite Hs.
Qed.

Lemma cell_update (r1 r2 : list (Pandas.value float))
      (x v : Pandas.value float) :
  forall k, cell k (r1 ++ v :: r2)
            = if Nat.eqb k (length r1) then v else cell k (r1 ++ x :: r2).
Proof.
  unfold cell. induction r1 as [|y r1 IH]; intros k.
  - destruct k; reflexivity.
  - destruct k; [reflexivity|]. cbn [app nth length Nat.eqb]. apply IH.
Qed.

(** Assigning a series to the one column labelled [c]. *)
Lemma setitem_at (c : string) (done todo : list string)
      (cur : DataFrame float) (s : list (Pandas.value float)) :
  ~ In c done -> ~ In c todo ->
  columns cur = done ++ c :: todo ->
  rectangular cur ->
  length s = length (values cur) ->
  columns (setitem cur c s) = columns cur /\
  index (setitem cur c s) = index cur /\
  rectangular (setitem cur c s) /\
  length (values (setitem cur c s)) = length (values cur) /\
  forall k, column k (setitem cur c s)
            = if Nat.eqb k (length done) then s else column k cur.
Proof.
  intros H1 H2 Hc Hrect Hs. unfold setitem.
  replace (existsb (String.eqb c) (columns cur)) with true
    by (symmetry; apply existsb_label; rewrite Hc, in_app_iff; right; now left).
  unfold rectangular, column in *. cbn [columns index values].
  split; [reflexivity|]. split; [reflexivity|].
  rewrite Hc in *. clear Hc.
  revert s Hs. induction Hrect as [|row rows Hrow _ IH]; intros s Hs.
  - destruct s; [|discriminate]. cbn [combine map length].
    repeat split; [constructor|]. intros k. now destruct (Nat.eqb _ _).
  - destruct s as [|v s]; [discriminate|].
    destruct (IH s) as (IH1 & IH2 & IH3); [now injection Hs|].
    destruct (set_cells_at _ _ _ H1 H2 row v Hrow) as (r1 & x & r2 & -> & Hr1 & E).
    cbn [combine map fst snd length]. rewrite E. split; [|split].
    + constructor; [|exact IH1]. rewrite <- Hrow.
      rewrite !length_app. reflexivity.
    + now rewrite IH2.
    + intros k. rewrite IH3, (cell_update r1 r2 x v), Hr1.
      now destruct (Nat.eqb k (length done)).
Qed.

Lemma read_cells_length (s : list (Pandas.value float))
      (ns : list (number float)) :
  read_cells to_number s = Some ns -> length ns = length s.
Proof.
  revert ns; induction s as [|v s IH]; intros ns H; cbn [read_cells] in H.
  - now injection H as <-.
  - destruct (read_cell to_number v); [|discriminate].
    destruct (read_cells to_number s); [|discriminate].
    injection H as <-. cbn [length]. f_equal. now apply IH.
Qed.

Lemma to_numeric_series_length (s : list (Pandas.value float)) :
  length (to_numeric_series float_of_int to_number s) = length s.
Proof.
  unfold to_numeric_series, numeric_cells.
  destruct (read_cells to_number s) as [ns|] eqn:E; [|reflexivity].
  apply read_cells_length in E.
  destruct (forallb _ ns); now rewrite length_map.
Qed.

Lemma column_length (k : nat) (df : DataFrame float) :
  length (column k df) = length (values df).
Proof. unfold column. apply length_map. Qed.

(** The loop of lines 67-68 over labels without repetition: the labels
    [todo] remain, those of [done] have been dealt with. *)
Lemma convert_columns_from (todo : list string) :
  forall (done : list string) (cur : DataFrame float),
    columns cur = done ++ todo ->
    NoDup (done ++ todo) ->
    rectangular cur ->
    exists df,
      convert_columns todo cur = Ok df /\
      columns df = columns cur /\
      index df = index cur /\
      rectangular df /\
      length (values df) = length (values cur) /\
      forall k, column k df
                = if (length done <=? k) && (k <? length (done ++ todo))
                  then to_numeric_series float_of_int to_number (column k cur)
                  else column k cur.
Proof.
  clear py_int web.
  induction todo as [|c todo IH]; intros done cur Hc Hnd Hrect.
  - exists cur. cbn [convert_columns]. repeat split; try assumption.
    intros k. rewrite app_nil_r.
    destruct (Nat.leb_spec (length done) k), (Nat.ltb_spec k (length done));
      try reflexivity; lia.
  - assert (H1 : ~ In c done /\ ~ In c todo).
    { apply NoDup_remove_2 in Hnd. rewrite in_app_iff in Hnd. tauto. }
    destruct H1 as [H1 H2].
    cbn [convert_columns]. unfold getitem.
    rewrite Hc, (positions_once _ _ _ H1 H2). cbn [bind to_numeric].
    set (s := to_numeric_series float_of_int to_number
                                (column (length done) cur)).
    assert (Hs : length s = length (values cur)).
    { unfold s. now rewrite to_numeric_series_length, column_length. }
    destruct (setitem_at _ _ _ _ s H1 H2 Hc Hrect Hs) as (S1 & S2 & S3 & S4 & S5).
    destruct (IH (done ++ [c]) (setitem cur c s)) as (df & D1 & D2 & D3 & D4 & D5 & D6).
    + rewrite S1, Hc, <- app_assoc. reflexivity.
    + now rewrite <- app_assoc.
    + exact S3.
    + exists df. split; [exact D1|]. split; [congruence|].
      split; [congruence|]. split; [exact D4|]. split; [congruence|].
      intros k. rewrite D6, !S5, <- app_assoc. cbn [app].
      rewrite length_app. cbn [length].
      destruct (Nat.eqb_spec k (length done)) as [->|Hk].
      * replace (length done + 1 <=? length done) with false
          by (symmetry; apply Nat.leb_gt; lia).
        cbn [andb]. rewrite Nat.leb_refl.
        replace (length done <? length (done ++ c :: todo)) with true;
          [reflexivity|].
        symmetry. apply Nat.ltb_lt. rewrite length_app. cbn [length]. lia.
      * destruct (Nat.leb_spec (length done + 1) k),
                 (Nat.leb_spec (length done) k); try reflexivity; lia.
Qed.

Lemma positions_in (c : string) (l : list string) :
  In c l -> forall n, positions c l n <> [].
Proof.
  induction l as [|a l IH]; intros Hin n; [contradiction|].
  cbn [positions]. destruct (String.eqb_spec a c) as [->|Hne]; [discriminate|].
  apply IH. destruct Hin; [contradiction | assumption].
Qed.

Lemma positions_single_nodup (l : list string) :
  forall n, (forall c, In c l -> exists j, positions c l n = [j]) -> NoDup l.
Proof.
  induction l as [|a l IH]; intros n H; constructor.
  - intros Hin. destruct (H a (or_introl eq_refl)) as [j Hj].
    cbn [positions] in Hj. rewrite String.eqb_refl in Hj.
    injection Hj as _ Hj. exact (positions_in a l Hin (S n) Hj).
  - apply (IH (S n)). intros c Hin.
    destruct (H c (or_intror Hin)) as [j Hj]. cbn [positions] in Hj.
    destruct (String.eqb_spec a c) as [->|_]; [|now exists j].
    injection Hj as _ Hj. now destruct (positions_in c l Hin (S n)).
Qed.

(** When the loop of lines 67-68 ends without an error, every label it
    went through is the label of one column only. *)
Lemma convert_columns_labels (todo : list string) :
  forall (cur df : DataFrame float),
    convert_columns todo cur = Ok df ->
    forall c, In c todo -> exists j, positions c (columns cur) 0 = [j].
Proof.
  induction todo as [|a todo IH]; intros cur df H c Hin; [contradiction|].
  cbn [convert_columns] in H. unfold getitem in H.
  destruct (positions a (columns cur) 0) as [|j [|j' js]] eqn:Hp;
    try discriminate.
  cbn [bind to_numeric] in H. destruct Hin as [->|Hin]; [now exists j|].
  destruct (IH _ _ H c Hin) as [j' Hj']. exists j'.
  unfold setitem in Hj'.
  destruct (existsb (String.eqb a) (columns cur)) eqn:Ex; [exact Hj'|].
  exfalso. destruct (in_dec string_dec a (columns cur)) as [Ha|Ha].
  - apply existsb_label in Ha. congruence.
  - rewrite (positions_notin _ _ Ha) in Hp. discriminate.
Qed.

(** [read_table] in two steps: the frame of texts, then each column
    through [pd.to_numeric]. *)
Lemma read_table_inv (table : node) (df : DataFrame float) :
  read_table table = Ok df ->
  exists raw,
    assemble_table table = Ok raw /\
    NoDup (columns raw) /\
    columns df = columns raw /\
    index df = index raw /\
    rectangular df /\
    length (values df) = length (values raw) /\
    forall k, k < length (columns raw) ->
              column k df
              = to_numeric_series float_of_int to_number (column k raw).
Proof.
  clear py_int web.
  unfold read_table. destruct (assemble_table table) as [raw|e] eqn:Ha;
    [|discriminate].
  cbn [bind]. intros H. exists raw. split; [reflexivity|].
  assert (Hnd : NoDup (columns raw)).
  { apply (positions_single_nodup _ 0). intros c Hin.
    exact (convert_columns_labels _ _ _ H c Hin). }
  split; [exact Hnd|].
  destruct (convert_columns_from (columns raw) [] raw eq_refl Hnd
              (assemble_table_rectangular _ _ Ha))
    as (df' & D1 & D2 & D3 & D4 & D5 & D6).
  rewrite H in D1. injection D1 as <-. repeat split; try assumption.
  intros k Hk. rewrite D6. cbn [app length Nat.leb andb].
  apply Nat.ltb_lt in Hk. now rewrite Hk.
Qed.

Lemma read_table_total (table : node) (raw : DataFrame float) :
  assemble_table table = Ok raw ->
  NoDup (columns raw) ->
  exists df, read_table table = Ok df.
Proof.
  clear py_int web.
  intros Ha Hnd. unfold read_table. rewrite Ha. cbn [bind].
  destruct (convert_columns_from (columns raw) [] raw eq_refl Hnd
              (assemble_table_rectangular _ _ Ha)) as (df & D & _).
  now exists df.
Qed.

(** ** read_table: the claims *)

Lemma ranked_rows_width (cols : list string) (l : list node) :
  forall i (rows : list (list (Pandas.value float))),
    Forall2 (row_of cols) (ranked i l) rows ->
    length rows = length l /\
    Forall (fun country =>
              length (filter is_tag (children country)) = length cols) l.
Proof.
  induction l as [|country l IH]; intros i rows H; cbn [ranked] in H.
  - inversion H. split; [reflexivity | constructor].
  - inversion H as [|ic row l' rows' Hrow Hrest]; subst.
    destruct (IH _ _ Hrest) as [IH1 IH2]. split; [cbn [length]; now rewrite IH1|].
    constructor; [|exact IH2].
    destruct Hrow as (c0 & rest & Ht & Hl & _). cbn [snd] in Ht.
    rewrite <- Hl, <- Ht, tag_texts_filter. now rewrite length_map.
Qed.

(** C5: for a table whose header row has H tags, every row of the frame
    that [read_table] returns has exactly H values, the frame has one row
    per tag of the body, and H column labels; and when some row of the
    body has a number of cells other than H, [read_table] raises an error
    instead of returning a frame. *)
Theorem read_table_row_width (table thead tr tbody : node) :
  find "thead" table = Some thead ->
  find "tr" thead = Some tr ->
  find "tbody" table = Some tbody ->
  (forall df, read_table table = Ok df ->
     length (columns df) = length (filter is_tag (children tr)) /\
     Forall (fun row => length row = length (filter is_tag (children tr)))
            (values df) /\
     length (values df) = length (filter is_tag (children tbody))) /\
  (Exists (fun country => length (filter is_tag (children country))
                          <> length (filter is_tag (children tr)))
          (filter is_tag (children tbody)) ->
   exists e, read_table table = Raise e).
Proof.
  clear py_int web.
  intros E1 E2 E3.
  assert (Hinv : forall df, read_table table = Ok df ->
            columns df = tag_texts (children tr) /\
            rectangular df /\
            exists rows, length (values df) = length rows /\
              Forall2 (row_of (tag_texts (children tr)))
                      (ranked 1%Z (filter is_tag (children tbody))) rows).
  { intros df H. apply read_table_inv in H.
    destruct H as (raw & Ha & _ & Hc & _ & Hr & Hl & _).
    apply assemble_table_inv in Ha.
    destruct Ha as (thead' & tr' & tbody' & F1 & F2 & F3 & Hc' & _ & HF).
    rewrite E1 in F1. injection F1 as <-.
    rewrite E2 in F2. injection F2 as <-.
    rewrite E3 in F3. injection F3 as <-.
    split; [congruence|]. split; [exact Hr|]. now exists (values raw). }
  assert (Hw : length (tag_texts (children tr))
               = length (filter is_tag (children tr)))
    by (rewrite tag_texts_filter; apply length_map).
  split.
  - intros df H. destruct (Hinv df H) as (Hc & Hr & rows & Hl & HF).
    apply ranked_rows_width in HF. destruct HF as [HF _].
    unfold rectangular in Hr. rewrite Hc, Hw in Hr.
    split; [now rewrite Hc|]. split; [exact Hr | congruence].
  - intros Hex. destruct (read_table table) as [df|e] eqn:H; [|now exists e].
    exfalso. destruct (Hinv df eq_refl) as (_ & _ & rows & _ & HF).
    apply ranked_rows_width in HF. destruct HF as [_ HF].
    rewrite Hw in HF. rewrite Forall_forall in HF.
    apply Exists_exists in Hex. destruct Hex as (country & Hin & Hne).
    exact (Hne (HF country Hin)).
Qed.

(** C10: a table whose body has no tag among its children makes
    [read_table] raise the error of [pd.concat] on an empty list; no frame
    is returned. *)
Theorem read_table_empty_body (table thead tr tbody : node) :
  find "thead" table = Some thead ->
  find "tr" thead = Some tr ->
  find "tbody" table = Some tbody ->
  Forall (fun n => is_tag n = false) (children tbody) ->
  read_table table = Raise ValueError /\
  concat (@nil (DataFrame float)) = Raise ValueError.
Proof.
  intros E1 E2 E3 Hn. split; [|reflexivity].
  unfold read_table, assemble_table. rewrite E1. cbn [deref bind].
  rewrite E2. cbn [deref bind]. rewrite E3. cbn [deref bind].
  rewrite body_loop_no_rows; [reflexivity|].
  induction Hn as [|n l Hn _ IH]; [reflexivity|].
  cbn [filter]. now rewrite Hn.
Qed.

Lemma rank_cells_read (cols : list string) (l : list node) :
  forall i (rows : list (list (Pandas.value float))),
    Forall2 (row_of cols) (ranked i l) rows ->
    (forall k, (i <= k < i + Z.of_nat (length l))%Z ->
               to_number (Str.of_Z k) = Some (NInt k)) ->
    read_cells to_number (map (cell 0) rows)
    = Some (map (fun ic => NInt (fst ic)) (ranked i l)).
Proof.
  induction l as [|country l IH]; intros i rows H Hnum; cbn [ranked] in *.
  - inversion H. reflexivity.
  - inversion H as [|ic row l' rows' Hrow Hrest]; subst.
    cbn [map read_cells fst].
    rewrite (IH _ _ Hrest)
      by (intros k Hk; apply Hnum; cbn [length]; lia).
    destruct Hrow as (c0 & rest & _ & _ & ->). cbn [fst].
    destruct (ranked_row_first i rest) as (v & tl & -> & [-> | ->]);
      cbn [cell nth read_cell]; [reflexivity|].
    rewrite Hnum by (cbn [length]; lia). reflexivity.
Qed.

Lemma numeric_cells_ints (l : list (Z * node)) :
  numeric_cells float_of_int (map (fun ic => NInt (fst ic)) l)
  = map (fun ic => VInt (fst ic)) l.
Proof.
  unfold numeric_cells.
  replace (forallb _ _) with true.
  - now rewrite map_map.
  - symmetry. apply forallb_forall. intros n Hn.
    apply in_map_iff in Hn. now destruct Hn as (ic & <- & _).
Qed.

Lemma ranked_nth (l : list node) :
  forall i n ic, nth_error (ranked i l) n = Some ic ->
                 fst ic = (i + Z.of_nat n)%Z.
Proof.
  induction l as [|x l IH]; intros i n ic H; cbn [ranked] in H.
  - now destruct n.
  - destruct n as [|n]; cbn [nth_error] in H.
    + injection H as <-. cbn [fst]. lia.
    + rewrite (IH _ _ _ H). lia.
Qed.

Lemma ranked_length (l : list node) :
  forall i, length (ranked i l) = length l.
Proof. induction l; intros i; cbn [ranked length]; [|rewrite IHl]; reflexivity. Qed.

(** C2: in the frame that [read_table] returns, the value at index 0 of
    the row made from the i-th tag of the body (i counted from 1) is the
    integer i, whatever the table holds, provided that [pd.to_numeric]
    reads the decimal text of each rank as that integer. *)
Theorem read_table_rank (table : node) (df : DataFrame float) :
  read_table table = Ok df ->
  (forall k, (1 <= k <= Z.of_nat (length (values df)))%Z ->
             to_number (Str.of_Z k) = Some (NInt k)) ->
  (exists tbody, find "tbody" table = Some tbody /\
                 length (values df)
                 = length (filter is_tag (children tbody))) /\
  forall i row, nth_error (values df) i = Some row ->
                nth_error row 0 = Some (VInt (Z.of_nat i + 1)).
Proof.
  clear py_int web.
  intros H Hnum. apply read_table_inv in H.
  destruct H as (raw & Ha & _ & Hc & _ & Hr & Hl & Hk).
  apply assemble_table_inv in Ha.
  destruct Ha as (thead & tr & tbody & _ & _ & F3 & Hc' & _ & HF).
  destruct (ranked_rows_width _ _ _ _ HF) as [Hlen _].
  split; [exists tbody; split; [exact F3 | congruence]|].
  intros i row Hrow.
  assert (Hi : i < length (values df))
    by (apply nth_error_Some; congruence).
  assert (Hpos : 0 < length (columns raw)).
  { rewrite Hc'. destruct (values raw) as [|r0 rows]; [cbn in Hl; lia|].
    inversion HF as [|ic r l' rows' (c0 & rest & _ & Hw & _) _]; subst.
    rewrite <- Hw. cbn [length]. lia. }
  specialize (Hk 0 Hpos). unfold column in Hk.
  unfold to_numeric_series in Hk.
  rewrite (rank_cells_read _ _ _ _ HF) in Hk
    by (intros k Hk'; apply Hnum; lia).
  rewrite numeric_cells_ints in Hk.
  assert (Hcell : nth_error (map (cell 0) (values df)) i
                  = Some (cell 0 row))
    by (rewrite nth_error_map, Hrow; reflexivity).
  rewrite Hk, nth_error_map in Hcell.
  destruct (nth_error (ranked 1%Z _) i) as [ic|] eqn:Hic; [|discriminate].
  injection Hcell as Hcell. rewrite (ranked_nth _ _ _ _ Hic) in Hcell.
  unfold rectangular in Hr. rewrite Forall_forall in Hr.
  specialize (Hr row (nth_error_In _ _ Hrow)). rewrite Hc in Hr.
  destruct row as [|v row]; [cbn in Hr; lia|].
  cbn [cell nth] in Hcell. cbn [nth_error]. rewrite <- Hcell.
  f_equal. f_equal. lia.
Qed.







(** ** get_data and the loop over the years *)

Lemma get_data_run (link : string) (log : list string) :
  get_data link log = (page_data link, log ++ [link]).
Proof.
  unfold get_data, page_data, io_bind, requests_get, io_lift.
  destruct (web link) as [html|]; [|reflexivity].
  now destruct (nth_error (find_all "table" html) 1).
Qed.

(** C8: [get_data] requests the link, takes the second of the tables that
    [findAll] finds on the page and returns what [read_table] makes of it;
    on a page with fewer than two tables it raises [IndexError] and returns
    no frame. *)
Theorem get_data_second_table (link : string) (html : node)
        (log : list string) :
  web link = Some html ->
  snd (get_data link log) = log ++ [link] /\
  (forall table, nth_error (find_all "table" html) 1 = Some table ->
                 fst (get_data link log) = read_table table) /\
  (length (find_all "table" html) < 2 ->
   fst (get_data link log) = Raise IndexError).
Proof.
  intros Hw. rewrite get_data_run. cbn [fst snd]. unfold page_data.
  rewrite Hw. split; [reflexivity|]. split.
  - intros table ->. reflexivity.
  - intros Hl.
    assert (E : nth_error (find_all "table" html) 1 = None)
      by (apply nth_error_None; lia).
    now rewrite E.
Qed.

Lemma year_loop_inv (link : string) (ls : list string) :
  forall data log r log',
    year_loop link ls data log = (r, log') ->
    exists k,
      k <= length ls /\
      log' = log ++ repeat link k /\
      forall out, r = Ok out ->
        k = length ls /\
        exists news, out = data ++ news /\
                     Forall2 (year_frame link) ls news.
Proof.
  induction ls as [|l ls IH]; intros data log r log' H.
  - cbn in H. injection H as <- <-. exists 0. cbn [repeat length].
    rewrite app_nil_r. split; [lia|]. split; [reflexivity|]. intros out E.
    injection E as <-. split; [reflexivity|]. exists [].
    rewrite app_nil_r. split; [reflexivity | constructor].
  - cbn [year_loop] in H. unfold io_bind at 1 in H.
    rewrite get_data_run in H.
    destruct (page_data link) as [raw|e] eqn:Hp.
    + unfold io_bind at 1, io_lift in H.
      destruct (year_of l) as [y|e] eqn:Hy.
      * apply IH in H. destruct H as (k & Hk & -> & Hout).
        exists (S k). cbn [length repeat]. split; [lia|].
        split; [now rewrite <- app_assoc|].
        intros out E. destruct (Hout out E) as (-> & news & -> & HF).
        split; [reflexivity|].
        exists (setitem_scalar raw "Year" (VInt y) :: news).
        split; [now rewrite <- app_assoc|].
        constructor; [|exact HF]. now exists raw, y.
      * injection H as <- <-. exists 1. cbn [length repeat].
        split; [lia|]. split; [reflexivity | discriminate].
    + injection H as <- <-. exists 1. cbn [length repeat].
      split; [lia|]. split; [reflexivity | discriminate].
Qed.

Lemma get_all_links_inv (link : string) (html : node)
      (year_links : list string) :
  get_all_links link html = Ok year_links ->
  exists years, year_links = map (year_link link) years.
Proof.
  unfold get_all_links.
  destruct (deref _) as [form|]; [|discriminate]. cbn [bind].
  destruct (collect_years _ _) as [years|]; [|discriminate]. cbn [bind].
  intros H. injection H as <-. now exists years.
Qed.

Lemma numbeo_series_run (link : string) (html : node)
      (year_links : list string) (log : list string) :
  web link = Some html ->
  get_all_links link html = Ok year_links ->
  numbeo_series link log
  = match year_loop link year_links [] (log ++ [link]) with
    | (Ok data, log') => (concat data, log')
    | (Raise e, log') => (Raise e, log')
    end.
Proof.
  intros Hw Hl. unfold numbeo_series, io_bind, requests_get, io_lift.
  rewrite Hw, Hl. reflexivity.
Qed.

(** C1: every request of the year-series fetch goes to the base link:
    one for the page with the year control, then one for each year that is
    processed; no constructed per-year URL is among the requests, and each
    per-year frame is the frame read from the page behind the base link,
    the same for every year, with the year of its URL under Year. *)
Theorem year_series_requests_base_link (link : string) (html : node)
        (year_links : list string) (log : list string) :
  web link = Some html ->
  get_all_links link html = Ok year_links ->
  exists k r,
    k <= length year_links /\
    year_loop link year_links [] (log ++ [link])
    = (r, (log ++ [link]) ++ repeat link k) /\
    snd (numbeo_series link log) = log ++ link :: repeat link k /\
    Forall (fun l => ~ In l (link :: repeat link k)) year_links /\
    forall data, r = Ok data ->
      k = length year_links /\
      Forall2 (year_frame link) year_links data.
Proof.
  intros Hw Hl.
  destruct (year_loop link year_links [] (log ++ [link])) as [r log'] eqn:Hy.
  destruct (year_loop_inv _ _ _ _ _ _ Hy) as (k & Hk & -> & Hout).
  exists k, r. split; [exact Hk|]. split; [reflexivity|]. split; [|split].
  - rewrite (numbeo_series_run _ _ _ _ Hw Hl), Hy.
    rewrite <- app_assoc. now destruct r.
  - destruct (get_all_links_inv _ _ _ Hl) as [years ->].
    apply Forall_forall. intros l Hin Hreq.
    apply in_map_iff in Hin. destruct Hin as (year & <- & _).
    apply (year_link_neq link year).
    destruct Hreq as [E|E]; [now symmetry|].
    now apply repeat_spec in E.
  - intros data E. destruct (Hout data E) as (-> & news & -> & HF).
    now split.
Qed.

(** ** The merge of the years *)

Lemma concat_inv (frames : list (DataFrame float)) (whole : DataFrame float) :
  concat frames = Ok whole ->
  frames <> [] /\
  Forall (fun f => columns f = columns whole) frames /\
  index whole = List.concat (map (@index float) frames) /\
  values whole = List.concat (map (@values float) frames).
Proof.
  unfold concat. destruct frames as [|f frames]; [discriminate|].
  destruct (forallb _ _) eqn:E; [|discriminate].
  intros H. injection H as <-. cbn [columns index values].
  split; [discriminate|]. rewrite <- !flat_map_concat_map.
  split; [|now split].
  rewrite forallb_forall in E. apply Forall_forall. intros g Hg.
  specialize (E g Hg). unfold same_columns in E.
  now destruct (list_eq_dec string_dec (columns f) (columns g)).
Qed.

Lemma numbeo_series_inv (link : string) (log log' : list string)
      (whole : DataFrame float) :
  numbeo_series link log = (Ok whole, log') ->
  exists html year_links data,
    web link = Some html /\
    get_all_links link html = Ok year_links /\
    year_loop link year_links [] (log ++ [link]) = (Ok data, log') /\
    Forall2 (year_frame link) year_links data /\
    concat data = Ok whole.
Proof.
  intros H. unfold numbeo_series in H.
  unfold io_bind at 1, requests_get in H.
  destruct (web link) as [html|] eqn:Hw; [|discriminate].
  unfold io_bind at 1, io_lift at 1 in H.
  destruct (get_all_links link html) as [year_links|] eqn:Hl; [|discriminate].
  unfold io_bind, io_lift in H.
  destruct (year_loop link year_links [] (log ++ [link])) as [[data|e] lg]
    eqn:Hy; [|discriminate].
  injection H as Hc <-. exists html, year_links, data.
  repeat split; try assumption.
  destruct (year_loop_inv _ _ _ _ _ _ Hy) as (k & _ & _ & Hout).
  destruct (Hout data eq_refl) as (_ & news & -> & HF). exact HF.
Qed.

(** C7: the rows of the combined frame are the rows of the per-year
    frames, one frame after the other in the order of the year links, each
    row once and in its place; their count is the sum of the row counts of
    the per-year frames, of which there is one per year link. *)
Theorem combined_rows (link : string) (log log' : list string)
        (whole : DataFrame float) :
  numbeo_series link log = (Ok whole, log') ->
  exists html year_links data,
    web link = Some html /\
    get_all_links link html = Ok year_links /\
    year_loop link year_links [] (log ++ [link]) = (Ok data, log') /\
    Forall2 (year_frame link) year_links data /\
    values whole = List.concat (map (@values float) data) /\
    length (values whole)
    = list_sum (map (fun df => length (values df)) data).
Proof.
  intros H. apply numbeo_series_inv in H.
  destruct H as (html & year_links & data & Hw & Hl & Hy & HF & Hc).
  exists html, year_links, data. repeat split; try assumption.
  - now apply concat_inv in Hc.
  - apply concat_inv in Hc. destruct Hc as (_ & _ & _ & ->).
    now rewrite length_concat, map_map.
Qed.

(** The index of the combined frame is made of the index labels of the
    per-year frames: [pd.concat] keeps them as they are. *)
Lemma combined_index (link : string) (log log' : list string)
      (whole : DataFrame float) :
  numbeo_series link log = (Ok whole, log') ->
  exists year_links data,
    year_loop link year_links [] (log ++ [link]) = (Ok data, log') /\
    index whole = List.concat (map (@index float) data).
Proof.
  intros H. apply numbeo_series_inv in H.
  destruct H as (html & year_links & data & _ & _ & Hy & _ & Hc).
  exists year_links, data. split; [exact Hy|]. now apply concat_inv in Hc.
Qed.

(** ** The year of a link *)

Lemma split_nonempty (c : ascii) (s : string) : Str.split c s <> [].
Proof.
  destruct s as [|a s]; cbn [Str.split]; [discriminate|].
  destruct (Ascii.eqb a c); [discriminate|].
  destruct (Str.split c s); discriminate.
Qed.

Lemma join_cons (c : ascii) (w : string) (ws : list string) :
  ws <> [] ->
  Str.join c (w :: ws) = (w ++ String c (Str.join c ws))%string.
Proof. destruct ws; [contradiction | reflexivity]. Qed.

Lemma split_join (c : ascii) (s : string) :
  Str.join c (Str.split c s) = s.
Proof.
  induction s as [|a s IH]; [reflexivity|]. cbn [Str.split].
  destruct (Ascii.eqb_spec a c) as [->|_].
  - rewrite join_cons by apply split_nonempty. now rewrite IH.
  - destruct (Str.split c s) as [|w ws] eqn:E;
      [now destruct (split_nonempty c s)|].
    destruct ws as [|w' ws].
    + cbn in *. now rewrite IH.
    + rewrite <- IH. rewrite !join_cons by discriminate. reflexivity.
Qed.

Lemma split_no_sep (c : ascii) (s : string) :
  Forall (fun w => Str.mem c w = false) (Str.split c s).
Proof.
  induction s as [|a s IH]; cbn [Str.split].
  - constructor; [reflexivity | constructor].
  - destruct (Ascii.eqb a c) eqn:E.
    + constructor; [reflexivity | exact IH].
    + destruct (Str.split c s) as [|w ws].
      * constructor; [|constructor]. cbn. now rewrite E.
      * inversion IH as [|w' ws' Hw Hws]; subst.
        constructor; [|exact Hws]. cbn. now rewrite E, Hw.
Qed.

Lemma join_last (c : ascii) (init : list string) (x : string) :
  Str.join c (init ++ [x]) = x \/
  exists pre, Str.join c (init ++ [x]) = (pre ++ String c x)%string.
Proof.
  induction init as [|w init IH]; [now left|]. right.
  cbn [app]. rewrite join_cons by (now destruct init).
  destruct IH as [-> | [pre ->]].
  - now exists w.
  - exists (w ++ String c pre)%string.
    now rewrite string_app_assoc.
Qed.

Lemma split_last_item (c : ascii) (s seg : string) :
  Str.last_item (Str.split c s) = Ok seg ->
  (s = seg \/ exists pre, s = (pre ++ String c seg)%string) /\
  Str.mem c seg = false.
Proof.
  unfold Str.last_item. intros H.
  destruct (rev (Str.split c s)) as [|x r] eqn:E; [discriminate|].
  injection H as ->.
  assert (E' : Str.split c s = rev r ++ [seg])
    by (rewrite <- (rev_involutive (Str.split c s)), E; reflexivity).
  split.
  - rewrite <- (split_join c s), E'.
    destruct (join_last c (rev r) seg) as [-> | [pre ->]];
      [now left | right; now exists pre].
  - pose proof (split_no_sep c s) as HF. rewrite E' in HF.
    rewrite Forall_forall in HF. apply HF.
    rewrite in_app_iff. right. now left.
Qed.

Lemma split_first_item (c : ascii) (s seg : string) :
  Str.first_item (Str.split c s) = Ok seg ->
  (s = seg \/ exists rest, s = (seg ++ String c rest)%string) /\
  Str.mem c seg = false.
Proof.
  unfold Str.first_item. intros H.
  destruct (Str.split c s) as [|w ws] eqn:E; [discriminate|].
  injection H as ->. split.
  - rewrite <- (split_join c s), E. destruct ws as [|w' ws]; [now left|].
    right. eexists. apply join_cons. discriminate.
  - pose proof (split_no_sep c s) as HF. rewrite E in HF.
    now inversion HF.
Qed.

Lemma year_of_segment (l : string) (y : Z) :
  year_of l = Ok y ->
  exists seg, year_segment l seg /\ py_int seg = Some y.
Proof.
  clear web to_number float_of_int.
  unfold year_of, py_int_result. intros H.
  destruct (Str.last_item _) as [tail|] eqn:E1; [|discriminate].
  cbn [bind] in H.
  destruct (Str.first_item _) as [seg|] eqn:E2; [|discriminate].
  cbn [bind] in H. destruct (py_int seg) as [z|] eqn:E3; [|discriminate].
  injection H as ->. exists seg. split; [|exact E3].
  apply split_last_item in E1. apply split_first_item in E2.
  exists tail. tauto.
Qed.

(** ** The column Year *)

Lemma set_cells_replaced (col : string) (v : Pandas.value float)
      (cols : list string) :
  forall row, length row = length cols ->
              cells_replaced cols col v row (set_cells col cols row v).
Proof.
  unfold cells_replaced, set_cells.
  induction cols as [|a cols IH]; intros row Hl;
    destruct row as [|x row]; try discriminate.
  - split; [reflexivity|]. intros k c Hk. now destruct k.
  - destruct (IH row) as [IH1 IH2]; [now injection Hl|].
    cbn [combine map fst snd length]. split; [now rewrite IH1|].
    intros k c Hk. destruct k as [|k]; cbn [nth_error] in *.
    + injection Hk as ->. now destruct (String.eqb c col).
    + now apply IH2.
Qed.

Lemma combine_const {A B : Type} (f : A * B -> A) (b : B) (l : list A) :
  map f (combine l (map (fun _ => b) l)) = map (fun a => f (a, b)) l.
Proof. induction l as [|a l IH]; cbn; [|rewrite IH]; reflexivity. Qed.

(** [df["Year"] = y]: a new last column when no column is labelled Year,
    otherwise the values of the columns labelled Year are replaced. *)
Lemma setitem_scalar_year (raw : DataFrame float) (v : Pandas.value float) :
  rectangular raw ->
  index (setitem_scalar raw "Year" v) = index raw /\
  length (values (setitem_scalar raw "Year" v)) = length (values raw) /\
  (~ In "Year" (columns raw) ->
   columns (setitem_scalar raw "Year" v) = columns raw ++ ["Year"] /\
   values (setitem_scalar raw "Year" v)
   = map (fun row => row ++ [v]) (values raw)) /\
  (In "Year" (columns raw) ->
   columns (setitem_scalar raw "Year" v) = columns raw /\
   Forall2 (cells_replaced (columns raw) "Year" v)
           (values raw) (values (setitem_scalar raw "Year" v))).
Proof.
  intros Hrect. unfold setitem_scalar, setitem.
  destruct (existsb (String.eqb "Year") (columns raw)) eqn:Ex;
    cbn [columns index values].
  - apply existsb_label in Ex. split; [reflexivity|].
    rewrite (combine_const
               (fun rv => set_cells "Year" (columns raw) (fst rv) (snd rv))).
    cbn [fst snd]. rewrite length_map. split; [reflexivity|].
    split; [intros Hn; contradiction|]. intros _. split; [reflexivity|].
    unfold rectangular in Hrect.
    induction Hrect as [|row rows Hrow _ IH]; cbn [map]; constructor.
    + now apply set_cells_replaced.
    + exact IH.
  - split; [reflexivity|].
    rewrite (combine_const (fun rv => fst rv ++ [snd rv])).
    cbn [fst snd]. rewrite length_map. split; [reflexivity|]. split.
    + intros _. now split.
    + intros Hin. apply existsb_label in Hin. congruence.
Qed.

Lemma page_data_rectangular (link : string) (raw : DataFrame float) :
  page_data link = Ok raw -> rectangular raw.
Proof.
  clear py_int.
  unfold page_data. destruct (web link) as [html|]; [|discriminate].
  destruct (nth_error _ 1) as [table|]; [|discriminate].
  intros H. apply read_table_inv in H.
  destruct H as (raw' & _ & _ & _ & _ & Hr & _). exact Hr.
Qed.

(** C9, as the code has it: the year attached to a per-year frame is the
    integer that [int] reads in the part of the year link behind its last
    "=", cut before its first "-"; every row of the frame holds it under
    the label Year, in a new last column when the table read from the page
    has no column labelled Year, and in place of the values of that column
    when it has one. *)
Theorem year_column (link : string) (ls log log' : list string)
        (data : list (DataFrame float)) :
  year_loop link ls [] log = (Ok data, log') ->
  Forall2 (fun l df =>
             exists raw y seg,
               page_data link = Ok raw /\
               year_segment l seg /\ py_int seg = Some y /\
               length (values df) = length (values raw) /\
               (~ In "Year" (columns raw) ->
                columns df = columns raw ++ ["Year"] /\
                values df = map (fun row => row ++ [VInt y]) (values raw)) /\
               (In "Year" (columns raw) ->
                columns df = columns raw /\
                Forall2 (cells_replaced (columns raw) "Year" (VInt y))
                        (values raw) (values df)))
          ls data.
Proof.
  intros H. destruct (year_loop_inv _ _ _ _ _ _ H) as (k & _ & _ & Hout).
  destruct (Hout data eq_refl) as (_ & news & -> & HF). cbn [app].
  eapply Forall2_impl; [|exact HF].
  intros l df (raw & y & Hp & Hy & ->).
  destruct (year_of_segment _ _ Hy) as (seg & Hseg & Hint).
  destruct (setitem_scalar_year raw (VInt y) (page_data_rectangular _ _ Hp))
    as (_ & S2 & S3 & S4).
  exists raw, y, seg. repeat split; try assumption; tauto.
Qed.

(** ** Further properties of get_all_links *)

Lemma find_all_is_tag (nm : string) (n o : node) :
  In o (find_all nm n) -> is_tag o = true.
Proof.
  unfold find_all. intros H. apply filter_In in H. destruct H as [_ H].
  unfold has_name, is_tag in *. now destruct (name o).
Qed.

Lemma attr_tag_error (k : string) (o : node) (e : exn) :
  is_tag o = true -> attr k o = Raise e -> e = KeyError.
Proof.
  destruct o as [s|nm cls ats cs]; [discriminate|]. intros _. cbn [attr].
  destruct (lookup k ats); [discriminate|]. now intros [= <-].
Qed.

Lemma collect_years_missing (options : list node) :
  Forall (fun o => is_tag o = true) options ->
  Exists (fun o => full_year o = true /\ attr "value" o = Raise KeyError)
         options ->
  forall years, collect_years options years = Raise KeyError.
Proof.
  induction 1 as [|o options Ho _ IH]; intros Hex years.
  - inversion Hex.
  - cbn [collect_years]. fold (full_year o).
    destruct (full_year o) eqn:Hk.
    + destruct (attr "value" o) as [v|e] eqn:Ha; cbn [bind].
      * apply IH. inversion Hex as [? ? [_ Hbad]|]; subst; [congruence|assumption].
      * now rewrite (attr_tag_error _ _ _ Ho Ha).
    + apply IH. inversion Hex as [? ? [Hbad _]|]; subst; [congruence|assumption].
Qed.

(** X1: a page without the year control makes [get_all_links] raise
    [AttributeError]; a control with a full-year option that has no [value]
    attribute makes it raise [KeyError]; in both cases no link is returned. *)
Theorem get_all_links_errors (link : string) (html : node) :
  (find_class "changePageForm" html = None ->
   get_all_links link html = Raise AttributeError) /\
  (forall form,
     find_class "changePageForm" html = Some form ->
     Exists (fun o => full_year o = true /\ attr "value" o = Raise KeyError)
            (find_all "option" form) ->
     get_all_links link html = Raise KeyError).
Proof.
  unfold get_all_links. split.
  - intros ->. reflexivity.
  - intros form -> Hex. cbn [deref bind].
    rewrite collect_years_missing; [reflexivity| |exact Hex].
    apply Forall_forall. intros o Ho. exact (find_all_is_tag _ _ _ Ho).
Qed.

(** ** Further properties of read_table *)

Lemma body_loop_total (cols : list string) (rows : list node) :
  cols <> [] ->
  Forall (fun country =>
            length (filter is_tag (children country)) = length cols)
         (filter is_tag rows) ->
  forall i acc, exists news,
    body_loop cols rows i acc = Ok (acc ++ news) /\
    length news = length (filter is_tag rows).
Proof.
  intros Hc. induction rows as [|country rows IH]; intros HF i acc.
  - exists []. rewrite app_nil_r. now split.
  - cbn [body_loop filter] in *. destruct (is_tag country).
    + inversion HF as [|c l Hw HF']; subst.
      rewrite <- (length_map text), <- tag_texts_filter in Hw.
      destruct (tag_texts (children country)) as [|c0 rest] eqn:Et.
      { destruct cols; [contradiction | discriminate]. }
      cbn [map set_first bind]. unfold frame_of_row.
      rewrite np_array_length. cbn [length] in *. rewrite length_map, Hw.
      rewrite Nat.eqb_refl. cbn [bind].
      destruct (IH HF' (i + 1)%Z
                   (acc ++ [mkFrame cols [0%Z]
                              [np_array float (PyInt (i + 1) :: map PyStr rest)]]))
        as (news & Hn & Hl).
      eexists (_ :: news). rewrite Hn, <- app_assoc. split; [reflexivity|].
      cbn [length]. now rewrite Hl.
    + now apply IH.
Qed.

Lemma assemble_table_rows (table : node) (raw : DataFrame float) :
  assemble_table table = Ok raw -> values raw <> [].
Proof.
  unfold assemble_table.
  destruct (find "thead" table) as [thead|]; [|discriminate]. cbn [deref bind].
  destruct (find "tr" thead) as [tr|]; [|discriminate]. cbn [deref bind].
  destruct (find "tbody" table) as [tbody|]; [|discriminate]. cbn [deref bind].
  destruct (body_loop _ _ _ _) as [dfs|e] eqn:Hb; [|discriminate].
  cbn [bind]. apply body_loop_ranked in Hb. destruct Hb as [news [-> HF]].
  cbn [app] in *. destruct news as [|f news]; [discriminate|].
  inversion HF as [|ic f' l news' Hf _]; subst.
  apply row_frame_inv in Hf. destruct Hf as (_ & row & Hrow & _).
  pose proof (row_frames_rows _ _ _ HF) as [Hc _].
  rewrite (concat_same_columns _ _ _ Hc). cbn [bind]. intros [= <-].
  unfold reset_index. cbn [values flat_map]. rewrite Hrow. discriminate.
Qed.

Lemma assemble_table_total (table thead tr tbody : node) :
  find "thead" table = Some thead ->
  find "tr" thead = Some tr ->
  find "tbody" table = Some tbody ->
  filter is_tag (children tr) <> [] ->
  filter is_tag (children tbody) <> [] ->
  Forall (fun country =>
            length (filter is_tag (children country))
            = length (filter is_tag (children tr)))
         (filter is_tag (children tbody)) ->
  exists raw, assemble_table table = Ok raw /\
              columns raw = map text (filter is_tag (children tr)).
Proof.
  intros E1 E2 E3 Hh Hb HF. unfold assemble_table.
  rewrite E1. cbn [deref bind]. rewrite E2. cbn [deref bind].
  rewrite E3. cbn [deref bind]. rewrite tag_texts_filter.
  destruct (body_loop_total (map text (filter is_tag (children tr)))
                            (children tbody)) with (i := 0%Z) (acc := @nil (DataFrame float))
    as (news & Hn & Hl).
  - destruct (filter is_tag (children tr)); [contradiction | discriminate].
  - now rewrite length_map.
  - rewrite Hn. cbn [app bind].
    pose proof Hn as Hr. apply body_loop_ranked in Hr.
    destruct Hr as (news' & E & Hr). cbn [app] in E. subst news'.
    apply row_frames_rows in Hr. destruct Hr as [Hc _].
    destruct news as [|f news].
    + cbn [length] in Hl. destruct (filter is_tag (children tbody));
        [contradiction | discriminate].
    + rewrite (concat_same_columns _ _ _ Hc). cbn [bind].
      eexists. split; reflexivity.
Qed.

(** X2: [read_table] returns a frame exactly for the tables that have a
    [thead] with a [tr] and a [tbody], at least one header cell and at least
    one body row, as many cells in every body row as in the header, and
    header texts that are pairwise distinct; for every other table it
    raises. *)
Theorem read_table_returns_iff (table : node) :
  (exists df, read_table table = Ok df) <->
  exists thead tr tbody,
    find "thead" table = Some thead /\
    find "tr" thead = Some tr /\
    find "tbody" table = Some tbody /\
    filter is_tag (children tr) <> [] /\
    filter is_tag (children tbody) <> [] /\
    Forall (fun country =>
              length (filter is_tag (children country))
              = length (filter is_tag (children tr)))
           (filter is_tag (children tbody)) /\
    NoDup (map text (filter is_tag (children tr))).
Proof.
  clear py_int web. split.
  - intros [df H]. apply read_table_inv in H.
    destruct H as (raw & Ha & Hnd & _).
    pose proof (assemble_table_rows _ _ Ha) as Hne.
    apply assemble_table_inv in Ha.
    destruct Ha as (thead & tr & tbody & E1 & E2 & E3 & Hc & _ & HF).
    exists thead, tr, tbody. rewrite Hc, tag_texts_filter in Hnd.
    destruct (ranked_rows_width _ _ _ _ HF) as [Hl Hw].
    rewrite tag_texts_filter, length_map in Hw.
    repeat split; try assumption.
    + intros E. destruct (values raw) as [|r rows]; [contradiction|].
      inversion HF as [|ic r' l rows' (c0 & rest & _ & Hlen & _) _]; subst.
      rewrite tag_texts_filter, E in Hlen. discriminate.
    + intros E. rewrite E in Hl. destruct (values raw); [contradiction | discriminate].
  - intros (thead & tr & tbody & E1 & E2 & E3 & Hh & Hb & HF & Hnd).
    destruct (assemble_table_total _ _ _ _ E1 E2 E3 Hh Hb HF) as (raw & Ha & Hc).
    apply (read_table_total _ _ Ha). now rewrite Hc.
Qed.

(** X3: a frame that [read_table] returns has at least one row and one
    column, its labels are the texts of the header cells in their order, and
    its index counts the rows from 0. *)
Theorem read_table_shape (table : node) (df : DataFrame float) :
  read_table table = Ok df ->
  values df <> [] /\
  columns df <> [] /\
  index df = map Z.of_nat (seq 0 (length (values df))) /\
  exists thead tr,
    find "thead" table = Some thead /\
    find "tr" thead = Some tr /\
    columns df = map text (filter is_tag (children tr)).
Proof.
  clear py_int web. intros H. apply read_table_inv in H.
  destruct H as (raw & Ha & _ & Hc & Hi & _ & Hl & _).
  pose proof (assemble_table_rows _ _ Ha) as Hne.
  apply assemble_table_inv in Ha.
  destruct Ha as (thead & tr & tbody & E1 & E2 & _ & Hc' & Hi' & HF).
  split; [|split; [|split]].
  - intros E. rewrite E in Hl. destruct (values raw); [contradiction | discriminate].
  - rewrite Hc, Hc'. destruct (values raw) as [|r rows]; [contradiction|].
    inversion HF as [|ic r' l rows' (c0 & rest & _ & Hlen & _) _]; subst.
    intros E. rewrite E in Hlen. discriminate.
  - now rewrite Hi, Hi', Hl.
  - exists thead, tr. rewrite Hc, Hc', tag_texts_filter. now repeat split.
Qed.

Lemma convert_columns_error (todo : list string) :
  forall (cur : DataFrame float) (e : exn),
    (forall c, In c todo -> In c (columns cur)) ->
    convert_columns todo cur = Raise e -> e = TypeError.
Proof.
  induction todo as [|c todo IH]; intros cur e Hin H; [discriminate|].
  cbn [convert_columns] in H. unfold getitem in H.
  pose proof (positions_in c (columns cur) (Hin c (or_introl eq_refl)) 0) as Hp.
  destruct (positions c (columns cur) 0) as [|j [|j' js]]; [contradiction| |].
  - cbn [bind to_numeric] in H. apply IH in H; [exact H|].
    intros c' Hc'. unfold setitem.
    replace (existsb (String.eqb c) (columns cur)) with true
      by (symmetry; apply existsb_label; apply Hin; now left).
    cbn [columns]. apply Hin. now right.
  - cbn [bind to_numeric] in H. now injection H as <-.
Qed.

(** X4: a well-formed table in which two header cells have the same text
    makes [read_table] raise [TypeError]: [data[col]] is then a frame, which
    [pd.to_numeric] refuses. *)
Theorem read_table_repeated_label (table : node) (raw : DataFrame float) :
  assemble_table table = Ok raw ->
  ~ NoDup (columns raw) ->
  read_table table = Raise TypeError.
Proof.
  clear py_int web. intros Ha Hd.
  destruct (read_table table) as [df|e] eqn:H.
  - exfalso. apply Hd. apply read_table_inv in H.
    destruct H as (raw' & Ha' & Hnd & _). rewrite Ha in Ha'.
    injection Ha' as <-. exact Hnd.
  - f_equal. unfold read_table in H. rewrite Ha in H. cbn [bind] in H.
    apply (convert_columns_error _ _ _ (fun c Hc => Hc) H).
Qed.

Lemma ranked_row_cells (i : Z) (rest : list string) :
  (rest = [] /\ ranked_row i rest = [VInt i]) \/
  (rest <> [] /\ ranked_row i rest = VStr (Str.of_Z i) :: map VStr rest).
Proof.
  unfold ranked_row, np_array. cbn [forallb is_int andb].
  destruct rest as [|c rest]; [left; now split | right].
  split; [discriminate|]. cbn [map forallb is_int andb]. now rewrite map_map.
Qed.

Lemma cell_text (j : nat) (l : list string) :
  j < length l -> cell j (map VStr l) = VStr (float := float) (nth j l "").
Proof.
  unfold cell. revert j; induction l as [|x l IH]; intros j Hj; [cbn in Hj; lia|].
  destruct j; [reflexivity|]. cbn [map nth]. apply IH. cbn in Hj. lia.
Qed.

(** The cells behind the first one are the texts of the cells of the row. *)
Lemma text_cells (cols : list string) (j : nat) (l : list node) :
  1 <= j < length cols ->
  forall i (rows : list (list (Pandas.value float))),
    Forall2 (row_of cols) (ranked i l) rows ->
    map (cell j) rows
    = map (fun country => VStr (nth j (tag_texts (children country)) "")) l.
Proof.
  intros Hj. induction l as [|country l IH]; intros i rows H;
    cbn [ranked] in H.
  - inversion H. reflexivity.
  - inversion H as [|ic row l' rows' Hrow Hrest]; subst.
    cbn [map]. rewrite (IH _ _ Hrest). f_equal.
    destruct Hrow as (c0 & rest & Ht & Hl & ->). cbn [fst snd] in *.
    rewrite Ht. cbn [length] in Hl.
    destruct (ranked_row_cells i rest) as [[-> _] | [_ ->]];
      [cbn in Hl; lia|].
    destruct j as [|j]; [lia|]. unfold cell. cbn [nth].
    apply (cell_text j rest). lia.
Qed.

Lemma rank_cells_kind (cols : list string) (l : list node) :
  forall i (rows : list (list (Pandas.value float))),
    Forall2 (row_of cols) (ranked i l) rows ->
    same_kind (map (cell 0) rows).
Proof.
  intros i rows H.
  destruct (Nat.eq_dec (length cols) 1) as [E|E]; [left | right; right];
    revert i rows H; induction l as [|country l IH]; intros i rows H;
    cbn [ranked] in H; inversion H as [|ic row l' rows' Hrow Hrest]; subst;
    cbn [map]; constructor; try (eapply IH; eassumption);
    destruct Hrow as (c0 & rest & _ & Hl & ->); cbn [fst length] in *;
    destruct (ranked_row_cells i rest) as [[-> ->] | [Hne ->]];
    cbn [cell nth]; try (now eexists).
  - destruct rest; [contradiction | cbn in Hl; lia].
  - cbn in Hl. lia.
Qed.

Lemma numeric_cells_kind (ns : list (number float)) :
  same_kind (numeric_cells float_of_int ns).
Proof.
  unfold numeric_cells. destruct (forallb (@is_NInt float) ns) eqn:E.
  - left. apply Forall_forall. intros v Hv. apply in_map_iff in Hv.
    destruct Hv as (n & <- & Hn). rewrite forallb_forall in E.
    specialize (E n Hn). destruct n; [now eexists | discriminate].
  - right. left. apply Forall_forall. intros v Hv. apply in_map_iff in Hv.
    destruct Hv as (n & <- & _). now eexists.
Qed.

Lemma to_numeric_series_kind (s : list (Pandas.value float)) :
  same_kind s -> same_kind (to_numeric_series float_of_int to_number s).
Proof.
  intros H. unfold to_numeric_series.
  destruct (read_cells to_number s); [apply numeric_cells_kind | exact H].
Qed.

(** X5: every column of a frame that [read_table] returns has one dtype:
    its values are all integers, all floats or all texts. *)
Theorem read_table_column_kind (table : node) (df : DataFrame float) (j : nat) :
  read_table table = Ok df ->
  j < length (columns df) ->
  same_kind (column j df).
Proof.
  clear py_int web. intros H Hj. apply read_table_inv in H.
  destruct H as (raw & Ha & _ & Hc & _ & _ & _ & Hk).
  rewrite Hc in Hj. rewrite (Hk j Hj). apply to_numeric_series_kind.
  apply assemble_table_inv in Ha.
  destruct Ha as (thead & tr & tbody & _ & _ & _ & Hc' & _ & HF).
  unfold column. destruct j as [|j].
  - exact (rank_cells_kind _ _ _ _ HF).
  - rewrite (text_cells (tag_texts (children tr)) (S j) _
               ltac:(rewrite <- Hc'; lia) _ _ HF).
    right. right. apply Forall_forall. intros v Hv.
    apply in_map_iff in Hv. destruct Hv as (c & <- & _). now eexists.
Qed.

(** X6: behind the rank, the column at position j of the frame that
    [read_table] returns is made of the texts of the cells at position j of
    the body rows, in the order of the rows, passed as one series through
    [pd.to_numeric]; the text of the first cell of a row is not used. *)
Theorem read_table_cell_texts (table : node) (df : DataFrame float) :
  read_table table = Ok df ->
  exists tbody,
    find "tbody" table = Some tbody /\
    forall j, 1 <= j < length (columns df) ->
      column j df
      = to_numeric_series float_of_int to_number
          (map (fun country =>
                  VStr (nth j (map text (filter is_tag (children country))) ""))
               (filter is_tag (children tbody))).
Proof.
  clear py_int web. intros H. apply read_table_inv in H.
  destruct H as (raw & Ha & _ & Hc & _ & _ & _ & Hk).
  apply assemble_table_inv in Ha.
  destruct Ha as (thead & tr & tbody & _ & _ & E3 & Hc' & _ & HF).
  exists tbody. split; [exact E3|]. intros j Hj. rewrite Hc in Hj.
  rewrite (Hk j (proj2 Hj)). unfold column.
  rewrite (text_cells (tag_texts (children tr)) j _
             ltac:(rewrite <- Hc'; exact Hj) _ _ HF).
  f_equal. apply map_ext. intros c. now rewrite tag_texts_filter.
Qed.

(** ** Further properties of the year series *)

Lemma collect_years_none (options : list node) (years : list string) :
  Forall (fun o => full_year o = false) options ->
  collect_years options years = Ok years.
Proof.
  revert years. induction options as [|o options IH]; intros years H;
    [reflexivity|].
  inversion H as [|o' l Ho Hrest]; subst. cbn [collect_years].
  fold (full_year o). rewrite Ho. now apply IH.
Qed.

(** X7: when the year control offers no full-year option (no option at
    all, or mid-year entries only) the year-series fetch requests the base
    link once and then fails with the [ValueError] of [pd.concat] on an empty
    list; no frame is produced. *)
Theorem numbeo_series_no_full_year (link : string) (html form : node)
        (log : list string) :
  web link = Some html ->
  find_class "changePageForm" html = Some form ->
  Forall (fun o => full_year o = false) (find_all "option" form) ->
  numbeo_series link log = (Raise ValueError, log ++ [link]).
Proof.
  intros Hw Hf Hn.
  assert (Hl : get_all_links link html = Ok []).
  { unfold get_all_links. rewrite Hf. cbn [deref bind].
    now rewrite (collect_years_none _ _ Hn). }
  rewrite (numbeo_series_run _ _ _ _ Hw Hl). reflexivity.
Qed.

Lemma split_app_sep (c : ascii) (a b : string) :
  Str.split c (a ++ String c b) = Str.split c a ++ Str.split c b.
Proof.
  induction a as [|x a IH]; cbn [String.append Str.split].
  - now rewrite Ascii.eqb_refl.
  - rewrite IH. destruct (Ascii.eqb x c); [reflexivity|].
    destruct (Str.split c a) as [|w ws] eqn:E;
      [now destruct (split_nonempty c a) | reflexivity].
Qed.

Lemma last_item_app (l1 l2 : list string) :
  l2 <> [] -> Str.last_item (l1 ++ l2) = Str.last_item l2.
Proof.
  intros H. unfold Str.last_item. rewrite rev_app_distr.
  destruct (rev l2) as [|x r] eqn:E; [|reflexivity].
  apply (f_equal (@rev string)) in E. rewrite rev_involutive in E.
  now destruct H.
Qed.

(** X8: the year that line 160 reads from a constructed link
    [<base>?title=<value>] is the year it reads from the option value alone:
    the base link has no part in it, whatever characters it holds. *)
Theorem year_of_year_link (link value : string) :
  year_of (year_link link value) = year_of value.
Proof.
  clear web to_number float_of_int. unfold year_of, year_link.
  change (link ++ "?title=" ++ value)%string
    with (link ++ ("?title" ++ String "=" value))%string.
  rewrite <- string_app_assoc, split_app_sep.
  rewrite last_item_app by apply split_nonempty.
  reflexivity.
Qed.

Lemma year_frames_one_page (link : string) (ls : list string)
      (data : list (DataFrame float)) :
  Forall2 (year_frame link) ls data ->
  data <> [] ->
  exists raw years,
    page_data link = Ok raw /\
    Forall2 (fun l y => year_of l = Ok y) ls years /\
    data = map (fun y => setitem_scalar raw "Year" (VInt y)) years.
Proof.
  intros HF Hne. destruct HF as [|l df ls data (raw & y & Hp & Hy & ->) HF];
    [contradiction|].
  exists raw. clear Hne.
  assert (H : exists years,
             Forall2 (fun l y => year_of l = Ok y) ls years /\
             data = map (fun y => setitem_scalar raw "Year" (VInt y)) years).
  { induction HF as [|l' df' ls data (raw' & y' & Hp' & Hy' & ->) _ IH].
    - exists []. split; [constructor | reflexivity].
    - destruct IH as (years & H1 & ->). exists (y' :: years).
      split; [now constructor|]. cbn [map]. f_equal.
      rewrite Hp in Hp'. now injection Hp' as <-. }
  destruct H as (years & H1 & ->). exists (y :: years).
  split; [exact Hp|]. split; [now constructor | reflexivity].
Qed.

Lemma page_data_index (link : string) (raw : DataFrame float) :
  page_data link = Ok raw ->
  index raw = map Z.of_nat (seq 0 (length (values raw))).
Proof.
  clear py_int. unfold page_data. destruct (web link) as [html|]; [|discriminate].
  destruct (nth_error _ 1) as [table|]; [|discriminate].
  intros H. apply read_table_inv in H.
  destruct H as (raw' & Ha & _ & _ & Hi & _ & Hl & _).
  apply assemble_table_inv in Ha.
  destruct Ha as (_ & _ & _ & _ & _ & _ & _ & Hi' & _).
  now rewrite Hi, Hi', Hl.
Qed.

(** X9: the combined frame repeats the table of the base page once per
    year link, in the order of the links: when that table has no column
    labelled Year, its labels are those of the table followed by Year, and
    its rows are the rows of the table with the year of the first link at
    their end, then the same rows with the year of the second link, and so
    on. *)
Theorem combined_frame_repeats_page (link : string) (log log' : list string)
        (whole : DataFrame float) :
  numbeo_series link log = (Ok whole, log') ->
  exists html year_links raw years,
    web link = Some html /\
    get_all_links link html = Ok year_links /\
    page_data link = Ok raw /\
    Forall2 (fun l y => year_of l = Ok y) year_links years /\
    (~ In "Year" (columns raw) ->
     columns whole = columns raw ++ ["Year"] /\
     values whole
     = flat_map (fun y => map (fun row => row ++ [VInt y]) (values raw))
                years).
Proof.
  intros H. apply numbeo_series_inv in H.
  destruct H as (html & year_links & data & Hw & Hl & _ & HF & Hc).
  apply concat_inv in Hc. destruct Hc as (Hne & Hcols & _ & Hv).
  destruct (year_frames_one_page _ _ _ HF Hne) as (raw & years & Hp & Hy & ->).
  exists html, year_links, raw, years. repeat split; try assumption.
  - destruct years as [|y years]; [contradiction|].
    inversion Hcols as [|f fs Hf _]; subst. rewrite <- Hf.
    now apply (setitem_scalar_year raw (VInt y) (page_data_rectangular _ _ Hp)).
  - rewrite Hv, map_map, flat_map_concat_map. f_equal. apply map_ext.
    intros y.
    now apply (setitem_scalar_year raw (VInt y) (page_data_rectangular _ _ Hp)).
Qed.

(** X10: the index of the combined frame starts again at 0 with every
    year: it is the index 0, 1, ..., n - 1 of the table of the base page,
    once per year link. *)
Theorem combined_index_restarts (link : string) (log log' : list string)
        (whole : DataFrame float) :
  numbeo_series link log = (Ok whole, log') ->
  exists raw year_links,
    page_data link = Ok raw /\
    (exists html, web link = Some html /\
                  get_all_links link html = Ok year_links) /\
    index whole
    = flat_map (fun _ => map Z.of_nat (seq 0 (length (values raw))))
               year_links.
Proof.
  intros H. apply numbeo_series_inv in H.
  destruct H as (html & year_links & data & Hw & Hl & _ & HF & Hc).
  apply concat_inv in Hc. destruct Hc as (Hne & _ & Hi & _).
  destruct (year_frames_one_page _ _ _ HF Hne) as (raw & years & Hp & Hy & ->).
  exists raw, year_links. split; [exact Hp|]. split; [now exists html|].
  rewrite Hi, map_map, !flat_map_concat_map. f_equal.
  clear HF Hne Hi Hl. induction Hy as [|l y ls years _ _ IH]; [reflexivity|].
  cbn [map]. f_equal; [|exact IH].
  rewrite <- (page_data_index _ _ Hp).
  now apply (setitem_scalar_year raw (VInt y) (page_data_rectangular _ _ Hp)).
Qed.

(** ** The data directory *)

Lemma read_remove_same (n : string) (d : Files.dir) :
  Files.read n (Files.remove n d) = None.
Proof.
  unfold Files.remove.
  induction d as [|[m c] d IH]; [reflexivity|]. cbn [filter fst].
  destruct (String.eqb_spec m n) as [->|Hne]; cbn [negb]; [exact IH|].
  cbn [Files.read]. destruct (String.eqb_spec m n); [contradiction | exact IH].
Qed.

Lemma read_remove_other (n m : string) (d : Files.dir) :
  n <> m -> Files.read m (Files.remove n d) = Files.read m d.
Proof.
  intros Hne. unfold Files.remove.
  induction d as [|[k c] d IH]; [reflexivity|].
  cbn [filter fst Files.read].
  destruct (String.eqb_spec k n) as [->|Hk]; cbn [negb].
  - destruct (String.eqb_spec n m); [contradiction | exact IH].
  - cbn [Files.read]. now rewrite IH.
Qed.

Lemma read_write_same (n c : string) (d : Files.dir) :
  Files.read n (Files.write n c d) = Some c.
Proof. unfold Files.write. cbn [Files.read]. now rewrite String.eqb_refl. Qed.

Lemma read_write_other (n m c : string) (d : Files.dir) :
  n <> m -> Files.read m (Files.write n c d) = Files.read m d.
Proof.
  intros Hne. unfold Files.write. cbn [Files.read].
  destruct (String.eqb_spec n m); [contradiction|].
  now apply read_remove_other.
Qed.

Lemma listed_read (n : string) (d : Files.dir) :
  Files.listed n d = true <-> exists c, Files.read n d = Some c.
Proof.
  unfold Files.listed, Files.listdir.
  induction d as [|[m c] d IH]; cbn [map existsb fst Files.read].
  - split; [discriminate | intros [c H]; discriminate].
  - rewrite String.eqb_sym. destruct (String.eqb m n); [|exact IH].
    split; [intros _; now exists c | reflexivity].
Qed.

Lemma read_listed_names (n : string) (d : Files.dir) :
  In n (map fst d) -> exists c, Files.read n d = Some c.
Proof.
  intros H. apply listed_read. unfold Files.listed, Files.listdir.
  apply existsb_exists. exists n. split; [exact H | apply String.eqb_refl].
Qed.

(** ** Suffixes *)

Lemma substring_prefix (a b : string) :
  substring 0 (String.length a) (a ++ b) = a.
Proof.
  induction a as [|c a IH]; cbn [String.length String.append substring].
  - now destruct b.
  - now rewrite IH.
Qed.

Lemma substring_suffix (a b : string) :
  substring (String.length a) (String.length b) (a ++ b) = b.
Proof.
  induction a as [|c a IH]; cbn [String.length String.append substring].
  - clear. induction b as [|c b IH]; [reflexivity|].
    cbn [String.length substring]. now rewrite IH.
  - exact IH.
Qed.

Lemma substring_split (s : string) :
  forall n, n <= String.length s ->
            s = (substring 0 n s ++ substring n (String.length s - n) s)%string.
Proof.
  induction s as [|c s IH]; intros n Hn; cbn [String.length] in *.
  - now replace n with 0 by lia.
  - destruct n as [|n].
    + cbn [substring String.append]. rewrite Nat.sub_0_r.
      f_equal. clear. induction s as [|c s IH]; [reflexivity|].
      cbn [String.length substring]. now rewrite <- IH.
    + cbn [substring String.append Nat.sub]. f_equal. apply IH. lia.
Qed.

Lemma endswith_app (suf a : string) : Files.endswith suf (a ++ suf) = true.
Proof.
  unfold Files.endswith. rewrite string_length_app.
  replace (String.length a + String.length suf - String.length suf)
    with (String.length a) by lia.
  rewrite substring_suffix, String.eqb_refl.
  replace (String.length suf <=? String.length a + String.length suf) with true;
    [reflexivity|]. symmetry. apply Nat.leb_le. lia.
Qed.

Lemma endswith_inv (suf s : string) :
  Files.endswith suf s = true -> exists a, s = (a ++ suf)%string.
Proof.
  unfold Files.endswith. intros H. apply andb_true_iff in H.
  destruct H as [Hl He]. apply Nat.leb_le in Hl. apply String.eqb_eq in He.
  exists (substring 0 (String.length s - String.length suf) s).
  pose proof (substring_split s (String.length s - String.length suf)
                              ltac:(lia)) as H.
  replace (String.length s - (String.length s - String.length suf))
    with (String.length suf) in H by lia.
  now rewrite He in H.
Qed.

Lemma drop_last_app (a suf : string) :
  Files.drop_last (String.length suf) (a ++ suf) = a.
Proof.
  unfold Files.drop_last. rewrite string_length_app.
  replace (String.length a + String.length suf - String.length suf)
    with (String.length a) by lia.
  apply substring_prefix.
Qed.

Lemma app_inj_suffix (a b x y : string) :
  (a ++ x)%string = (b ++ y)%string ->
  String.length x = String.length y -> a = b /\ x = y.
Proof.
  revert b. induction a as [|c a IH]; intros b E Hl.
  - destruct b as [|c b]; [now split|]. exfalso.
    apply (f_equal String.length) in E. cbn [String.append String.length] in E.
    rewrite string_length_app in E. lia.
  - destruct b as [|c' b].
    + exfalso. apply (f_equal String.length) in E.
      cbn [String.append String.length] in E.
      rewrite string_length_app in E. lia.
    + cbn [String.append] in E. injection E as -> E.
      destruct (IH b E Hl) as [-> ->]. now split.
Qed.

Lemma csv_not_zip (file name : string) :
  Files.endswith ".csv" file = true -> file <> (name ++ ".zip")%string.
Proof.
  intros H E. apply endswith_inv in H. destruct H as [a ->].
  apply app_inj_suffix in E; [|reflexivity]. destruct E as [_ E]. discriminate.
Qed.

(** ** extract_zip *)

Lemma extract_zip_run
        (unzip : string -> option (list (string * string)))
        (name bytes file : string) (others : list string)
        (archive : list (string * string)) (d : Files.dir) :
  Files.read (name ++ ".zip") d = Some bytes ->
  unzip bytes = Some archive ->
  filter Files.api_csv (map fst archive) = file :: others ->
  Str.mem "/" file = false ->
  exists content d',
    Files.member file archive = Some content /\
    Files.extract_zip unzip (name ++ ".zip") d = (Files.Done tt, d') /\
    Files.read (name ++ ".csv") d' = Some content /\
    Files.read (name ++ ".zip") d' = None /\
    (file <> (name ++ ".csv")%string -> Files.read file d' = None) /\
    (forall g, g <> (name ++ ".csv")%string ->
               g <> (name ++ ".zip")%string ->
               g <> file ->
               Files.read g d' = Files.read g d).
Proof.
  clear. intros Hz Hu Hf Hflat.
  assert (Hin : In file (filter Files.api_csv (map fst archive)))
    by (rewrite Hf; now left).
  apply filter_In in Hin. destruct Hin as [Hin Hapi].
  assert (Hcsv : Files.endswith ".csv" file = true).
  { unfold Files.api_csv in Hapi. apply andb_true_iff in Hapi. tauto. }
  pose proof (csv_not_zip file name Hcsv) as Hfz.
  assert (Hdz : (name ++ ".csv")%string <> (name ++ ".zip")%string)
    by (apply csv_not_zip, endswith_app).
  destruct (read_listed_names file (rev archive)) as [content Hm].
  { rewrite map_rev. now apply in_rev in Hin. }
  exists content. unfold Files.extract_zip.
  rewrite Hz, Hu, Hf, Hflat. fold (Files.member file archive) in Hm.
  unfold Files.member at 1. rewrite Hm.
  replace (Files.drop_last 4 (name ++ ".zip")) with name
    by (symmetry; apply (drop_last_app name ".zip")).
  unfold Files.rename. rewrite read_write_same.
  destruct (String.eqb_spec file (name ++ ".csv")) as [->|Hfd].
  - unfold Files.unlink.
    rewrite (read_write_other _ _ _ _ Hdz), Hz.
    eexists. split; [exact Hm|]. split; [reflexivity|].
    split; [|split; [|split]].
    + rewrite read_remove_other by congruence. apply read_write_same.
    + apply read_remove_same.
    + intros Hc. now destruct Hc.
    + intros g G1 G2 _. rewrite read_remove_other by congruence.
      apply read_write_other. congruence.
  - unfold Files.unlink.
    rewrite (read_remove_other _ _ _ Hfz),
            (read_write_other _ _ _ _ Hdz),
            (read_write_other _ _ _ _ Hfz), Hz.
    eexists. split; [exact Hm|]. split; [reflexivity|].
    split; [|split; [|split]].
    + rewrite read_remove_other by congruence.
      rewrite read_remove_other by congruence. apply read_write_same.
    + apply read_remove_same.
    + intros _. rewrite read_remove_other by congruence.
      apply read_remove_same.
    + intros g G1 G2 G3. rewrite !read_remove_other by congruence.
      rewrite !read_write_other by congruence. reflexivity.
Qed.

(** X11: [extract_zip] on [<name>.zip], for an archive whose first member
    named API_....csv has no directory part: it ends without an error;
    afterwards [<name>.csv] holds the content of that member, [<name>.zip] is
    gone, the member is no longer there under its own name, and every other
    file is as it was. *)
Theorem extract_zip_result
        (unzip : string -> option (list (string * string)))
        (name bytes file : string) (others : list string)
        (archive : list (string * string)) (d : Files.dir) :
  Files.read (name ++ ".zip") d = Some bytes ->
  unzip bytes = Some archive ->
  filter Files.api_csv (map fst archive) = file :: others ->
  Str.mem "/" file = false ->
  exists content d',
    Files.member file archive = Some content /\
    Files.extract_zip unzip (name ++ ".zip") d = (Files.Done tt, d') /\
    Files.read (name ++ ".csv") d' = Some content /\
    Files.read (name ++ ".zip") d' = None /\
    (file <> (name ++ ".csv")%string -> Files.read file d' = None) /\
    (forall g, g <> (name ++ ".csv")%string ->
               g <> (name ++ ".zip")%string ->
               g <> file ->
               Files.read g d' = Files.read g d).
Proof. apply extract_zip_run. Qed.

(** ** The loop over the manifest *)

Lemma split_none (c : ascii) (s : string) :
  Str.mem c s = false -> Str.split c s = [s].
Proof.
  induction s as [|a s IH]; [reflexivity|]. cbn [Str.mem Str.split].
  intros H. apply orb_false_iff in H. destruct H as [Ha Hs].
  rewrite Ha, (IH Hs). reflexivity.
Qed.

Lemma split_pair (c : ascii) (a b : string) :
  Str.mem c a = false -> Str.mem c b = false ->
  Str.split c (a ++ String c b) = [a; b].
Proof.
  intros Ha Hb. now rewrite split_app_sep, (split_none _ _ Ha), (split_none _ _ Hb).
Qed.

(** X12: an entry whose file [<name>.csv] is already in the data directory
    is not fetched again, whatever its link: no request is made, no file is
    touched, no browser is opened; only its line is written to
    [github_links.txt]. *)
Theorem process_entry_skips_existing
        (download : string -> option string)
        (unzip : string -> option (list (string * string)))
        (to_csv : DataFrame float -> string)
        (link name : string) (w : Files.world) :
  Str.mem " " link = false ->
  Str.mem " " name = false ->
  Files.listed (name ++ ".csv") (Files.files w) = true ->
  process_entry download unzip to_csv (link ++ String " " name) w
  = (Files.Done tt,
     Files.mkWorld (Files.files w) (Files.requested w) (Files.browser w)
                   (Files.stdout w) (Files.gitlinks w ++ [gitlink name])).
Proof.
  intros Hl Hn Hx. unfold process_entry, fetch_entry.
  rewrite (split_pair _ _ _ Hl Hn), Hx. cbn [negb].
  now destruct (Str.contains "worldbank" link),
               (Str.contains "oecd" link), (Str.contains "numbeo" link).
Qed.

Lemma numbeo_series_log (link : string) (log : list string) :
  exists k, snd (numbeo_series link log) = log ++ repeat link k.
Proof.
  unfold numbeo_series, io_bind at 1, requests_get.
  destruct (web link) as [html|]; [|now exists 1].
  unfold io_bind at 1, io_lift at 1.
  destruct (get_all_links link html) as [year_links|]; [|now exists 1].
  unfold io_bind, io_lift.
  destruct (year_loop link year_links [] (log ++ [link])) as [r log'] eqn:Hy.
  destruct (year_loop_inv _ _ _ _ _ _ Hy) as (k & _ & -> & _).
  exists (S k). rewrite <- app_assoc. now destruct r.
Qed.

Lemma extract_zip_total
      (unzip : string -> option (list (string * string)))
      (filename : string) (d : Files.dir) :
  exists r d', Files.extract_zip unzip filename d = (r, d').
Proof. destruct (Files.extract_zip unzip filename d) as [r d']. now exists r, d'. Qed.

Lemma fetch_entry_trace
      (download : string -> option string)
      (unzip : string -> option (list (string * string)))
      (to_csv : DataFrame float -> string)
      (link name : string) (w : Files.world) :
  (exists k, Files.requested (snd (fetch_entry download unzip to_csv link name w))
             = Files.requested w ++ repeat link k) /\
  Files.gitlinks (snd (fetch_entry download unzip to_csv link name w))
  = Files.gitlinks w.
Proof.
  unfold fetch_entry.
  assert (H0 : exists k, Files.requested w = Files.requested w ++ repeat link k)
    by (exists 0; now rewrite app_nil_r).
  destruct (Str.contains "worldbank" link);
    [|destruct (Str.contains "oecd" link);
      [|destruct (Str.contains "numbeo" link)]];
    destruct (negb _); try (split; [exact H0 | reflexivity]).
  - destruct (download link) as [content|];
      [|split; [now exists 1 | reflexivity]].
    destruct (Files.extract_zip _ _ _) as [r d'].
    split; [now exists 1 | reflexivity].
  - destruct (download link) as [content|];
      split; solve [now exists 1 | reflexivity].
  - destruct (numbeo_series_log link (Files.requested w)) as [k Hk].
    destruct (numbeo_series link (Files.requested w)) as [[whole|e] log];
      cbn [snd] in Hk; subst log; split; solve [now exists k | reflexivity].
Qed.

(** X13: whatever one line of the manifest leads to, the requests it adds
    all go to the link of that line. *)
Theorem process_entry_requests
        (download : string -> option string)
        (unzip : string -> option (list (string * string)))
        (to_csv : DataFrame float -> string)
        (raw link name : string) (w : Files.world) :
  Str.split " " raw = [link; name] ->
  exists k,
    Files.requested (snd (process_entry download unzip to_csv raw w))
    = Files.requested w ++ repeat link k.
Proof.
  intros Hs. unfold process_entry. rewrite Hs.
  destruct (fetch_entry_trace download unzip to_csv link name w) as [[k Hk] _].
  exists k. now destruct (fetch_entry download unzip to_csv link name w) as [[u|f] w'].
Qed.



Lemma main_loop_app
      (download : string -> option string)
      (unzip : string -> option (list (string * string)))
      (to_csv : DataFrame float -> string)
      (l1 l2 : list string) :
  forall w,
    main_loop download unzip to_csv (l1 ++ l2) w
    = match main_loop download unzip to_csv l1 w with
      | (Files.Done _, w1) => main_loop download unzip to_csv l2 w1
      | (Files.Failed f, w1) => (Files.Failed f, w1)
      end.
Proof.
  induction l1 as [|raw l1 IH]; intros w; [reflexivity|].
  cbn [app main_loop].
  destruct (process_entry download unzip to_csv raw w) as [[u|f] w1];
    [apply IH | reflexivity].
Qed.

(** X15: a manifest text that ends with a line break never runs to the
    end: the empty last line cannot be split into a link and a name.  When
    the text without the line break runs without an error, the text with it
    does all the same work and then stops with [ValueError]. *)
Theorem run_manifest_trailing_newline
        (download : string -> option string)
        (unzip : string -> option (list (string * string)))
        (to_csv : DataFrame float -> string)
        (text : string) (w : Files.world) :
  (exists f w',
     run_manifest download unzip to_csv (text ++ String newline "") w
     = (Files.Failed f, w')) /\
  (forall w1,
     run_manifest download unzip to_csv text w = (Files.Done tt, w1) ->
     run_manifest download unzip to_csv (text ++ String newline "") w
     = (Files.Failed (Files.Exn ValueError), w1)).
Proof.
  unfold run_manifest. rewrite split_app_sep, main_loop_app.
  change (Str.split newline "") with [""%string].
  destruct (main_loop download unzip to_csv (Str.split newline text) w)
    as [[u|f] w1].
  - split; [now exists (Files.Exn ValueError), w1|].
    intros w2 E. injection E as _ <-. reflexivity.
  - split; [now exists f, w1 | discriminate].
Qed.










End Crawl.

(** ** The theorems at work on the pages of [Example] *)

Local Open Scope nat_scope.

Lemma get_all_links_full_years_witness :
  find_class "changePageForm" (Example.page Example.cities)
  = Some Example.form /\
  exists links,
    get_all_links Example.base (Example.page Example.cities) = Ok links /\
    length links = 2.
Proof.
  split; [reflexivity|].
  destruct (get_all_links_full_years Example.base
              (Example.page Example.cities) Example.form eq_refl)
    as (links & Hl & HF & _).
  - intros o Hin _. cbn in Hin.
    destruct Hin as [<- | [<- | [<- | []]]]; eexists; reflexivity.
  - exists links. split; [exact Hl|].
    apply Forall2_length in HF. rewrite <- HF. reflexivity.
Defined.

Lemma read_table_row_width_witness :
  (forall df,
     read_table Ref.float_of_int Ref.to_number Example.cities = Ok df ->
     length (columns df) = 3 /\
     Forall (fun row => length row = 3) (values df) /\
     length (values df) = 2) /\
  exists e, read_table Ref.float_of_int Ref.to_number Example.ragged = Raise e.
Proof.
  split.
  - exact (proj1 (read_table_row_width _ Ref.float_of_int Ref.to_number
                    Example.cities _ _ _ eq_refl eq_refl eq_refl)).
  - apply (proj2 (read_table_row_width _ Ref.float_of_int Ref.to_number
                    Example.ragged _ _ _ eq_refl eq_refl eq_refl)).
    cbn. right. left. discriminate.
Defined.

Lemma read_table_empty_body_witness :
  read_table Ref.float_of_int Ref.to_number Example.empty_body
  = Raise ValueError.
Proof.
  apply (read_table_empty_body _ Ref.float_of_int Ref.to_number
           Example.empty_body _ _ _ eq_refl eq_refl eq_refl).
  cbn. constructor; [reflexivity | constructor].
Defined.

Lemma read_table_rank_witness :
  read_table Ref.float_of_int Ref.to_number Example.cities
  = Ok Example.cities_frame /\
  nth_error [VInt 2; VStr "Oslo"; VFloat (1100%Z, 1)] 0
  = Some (VInt (float := Ref.float) 2).
Proof.
  split; [reflexivity|].
  refine (proj2 (read_table_rank _ Ref.float_of_int Ref.to_number
                   Example.cities Example.cities_frame eq_refl _) 1 _ eq_refl).
  intros k Hk. cbn in Hk.
  assert (E : k = 1%Z \/ k = 2%Z) by lia.
  destruct E as [-> | ->]; reflexivity.
Defined.


Lemma get_data_second_table_witness :
  fst (get_data Ref.float_of_int Ref.to_number
                (Example.site Example.cities) Example.base [])
  = read_table Ref.float_of_int Ref.to_number Example.cities /\
  fst (get_data Ref.float_of_int Ref.to_number
                (Example.serve Example.bare) Example.base [])
  = Raise IndexError.
Proof.
  split.
  - apply (get_data_second_table _ Ref.float_of_int Ref.to_number
             (Example.site Example.cities) Example.base
             (Example.page Example.cities) [] eq_refl).
    reflexivity.
  - apply (get_data_second_table _ Ref.float_of_int Ref.to_number
             (Example.serve Example.bare) Example.base Example.bare []
             eq_refl).
    cbn. lia.
Defined.

Lemma year_series_requests_base_link_witness :
  get_all_links Example.base (Example.page Example.cities)
  = Ok Example.links /\
  exists k,
    k <= 2 /\
    snd (numbeo_series Ref.float_of_int Ref.to_number Ref.py_int
                       (Example.site Example.cities) Example.base [])
    = Example.base :: repeat Example.base k /\
    Forall (fun l => ~ In l (Example.base :: repeat Example.base k))
           Example.links.
Proof.
  split; [reflexivity|].
  destruct (year_series_requests_base_link _ Ref.float_of_int Ref.to_number
              Ref.py_int (Example.site Example.cities) Example.base
              (Example.page Example.cities) Example.links [] eq_refl eq_refl)
    as (k & r & Hk & _ & Hlog & Hreq & _).
  exists k. split; [exact Hk|]. split; [exact Hlog | exact Hreq].
Defined.

Lemma combined_rows_witness :
  exists data,
    Forall2 (year_frame Ref.float_of_int Ref.to_number Ref.py_int
                        (Example.site Example.cities) Example.base)
            Example.links data /\
    values (Example.cities_in 2020) ++ values (Example.cities_in 2019)
    = List.concat (map (@values Ref.float) data) /\
    4 = list_sum (map (fun df => length (values df)) data).
Proof.
  destruct (combined_rows _ Ref.float_of_int Ref.to_number Ref.py_int
              (Example.site Example.cities) Example.base []
              (repeat Example.base 3)
              (mkFrame ["Rank"; "City"; "Index"; "Year"]
                       [0; 1; 0; 1]%Z
                       (values (Example.cities_in 2020)
                        ++ values (Example.cities_in 2019)))
              eq_refl)
    as (html & year_links & data & Hw & Hl & _ & HF & Hv & Hn).
  injection Hw as <-. injection Hl as <-.
  exists data. split; [exact HF|]. split; [exact Hv | exact Hn].
Defined.

Lemma year_column_witness :
  exists df raw,
    page_data Ref.float_of_int Ref.to_number
              (Example.site Example.cities) Example.base = Ok raw /\
    year_segment "https://www.numbeo.com/cost-of-living/rankings.jsp?title=2020"
                 "2020" /\
    columns df = columns raw ++ ["Year"] /\
    values df = map (fun row => row ++ [VInt 2020%Z]) (values raw).
Proof.
  pose proof (year_column _ Ref.float_of_int Ref.to_number Ref.py_int
                (Example.site Example.cities) Example.base
                ["https://www.numbeo.com/cost-of-living/rankings.jsp?title=2020"]
                [] [Example.base] [Example.cities_in 2020] eq_refl) as H.
  inversion H as [|l df ls dfs (raw & y & seg & Hp & Hseg & Hy & _ & Hnew & _) _];
    subst.
  injection Hp as <-.
  exists (Example.cities_in 2020), Example.cities_frame.
  split; [reflexivity|].
  destruct (Hnew ltac:(cbn; intuition discriminate)) as [Hc Hv].
  split; [|split; [exact Hc | reflexivity]].
  exists "2020". cbn. split.
  - right. now exists "https://www.numbeo.com/cost-of-living/rankings.jsp?title".
  - split; [reflexivity|]. split; [now left | reflexivity].
Defined.

(** C9, as the claim is worded, fails: on a table whose header already has
    a column labelled Year the assignment of line 160 writes into that column
    and adds none. *)
Lemma year_column_not_new :
  ~ (forall (web : string -> option node) (link : string)
            (ls log log' : list string) (data : list (DataFrame Ref.float)),
        year_loop Ref.float_of_int Ref.to_number Ref.py_int web link ls [] log
        = (Ok data, log') ->
        Forall2 (fun l df =>
                   exists raw,
                     page_data Ref.float_of_int Ref.to_number web link = Ok raw /\
                     columns df = columns raw ++ ["Year"])
                ls data).
Proof.
  intros H.
  specialize (H (Example.site Example.dated) Example.base
                ["https://www.numbeo.com/cost-of-living/rankings.jsp?title=2020"]
                [] [Example.base]
                [mkFrame ["Rank"; "Year"; "City"] [0%Z]
                         [[VInt 1%Z; VInt 2020%Z; VStr "Oslo"]]]
                eq_refl).
  inversion H as [|l df ls dfs (raw & Hp & Hc) _]; subst.
  injection Hp as <-. discriminate Hc.
Qed.

(** C6: the code merges the per-year frames with [pd.concat(data)] and
    nothing else, so the combined frame keeps the index labels of each
    per-year frame: with two years and a table of two rows the index is
    0, 1, 0, 1, not 0, 1, 2, 3, which is what [reset_index], used after the
    concatenation inside [read_table], would give. *)
Theorem combined_index_not_renumbered :
  exists whole log,
    numbeo_series Ref.float_of_int Ref.to_number Ref.py_int
                  (Example.site Example.cities) Example.base []
    = (Ok whole, log) /\
    length (values whole) = 4 /\
    index whole = [0; 1; 0; 1]%Z /\
    index whole <> map Z.of_nat (seq 0 (length (values whole))) /\
    index (reset_index whole) = [0; 1; 2; 3]%Z.
Proof.
  eexists. eexists. split; [reflexivity|]. cbn.
  repeat split. discriminate.
Qed.

(** ** The further properties at work *)

Lemma get_all_links_errors_witness :
  get_all_links Example.base Example.no_control = Raise AttributeError /\
  get_all_links Example.base Example.valueless = Raise KeyError.
Proof.
  split.
  - apply (proj1 (get_all_links_errors Example.base Example.no_control)).
    reflexivity.
  - eapply (proj2 (get_all_links_errors Example.base Example.valueless));
      [reflexivity|].
    cbn. left. split; reflexivity.
Defined.

Lemma read_table_returns_iff_witness :
  exists df, read_table Ref.float_of_int Ref.to_number Example.cities = Ok df.
Proof.
  apply (read_table_returns_iff _ Ref.float_of_int Ref.to_number
                                Example.cities).
  eexists. eexists. eexists.
  split; [reflexivity|]. split; [reflexivity|]. split; [reflexivity|].
  cbn. split; [discriminate|]. split; [discriminate|].
  split; repeat constructor; cbn; intuition discriminate.
Defined.

Lemma read_table_shape_witness :
  index Example.cities_frame = [0; 1]%Z /\
  columns Example.cities_frame = ["Rank"; "City"; "Index"].
Proof.
  destruct (read_table_shape _ Ref.float_of_int Ref.to_number
              Example.cities Example.cities_frame eq_refl)
    as (_ & _ & Hi & _).
  split; [exact Hi | reflexivity].
Defined.

Lemma read_table_repeated_label_witness :
  read_table Ref.float_of_int Ref.to_number Example.twins = Raise TypeError.
Proof.
  eapply (read_table_repeated_label _ Ref.float_of_int Ref.to_number
                                    Example.twins); [reflexivity|].
  cbn. intros H. inversion H as [|x l _ H2]; subst.
  inversion H2 as [|y l' H3 _]; subst. apply H3. now left.
Defined.

Lemma read_table_column_kind_witness :
  same_kind (column 2 Example.cities_frame).
Proof.
  apply (read_table_column_kind _ Ref.float_of_int Ref.to_number
           Example.cities Example.cities_frame 2 eq_refl).
  cbn. lia.
Defined.

Lemma read_table_cell_texts_witness :
  column 1 Example.cities_frame
  = to_numeric_series Ref.float_of_int Ref.to_number
                      [VStr "Zurich"; VStr "Oslo"].
Proof.
  destruct (read_table_cell_texts _ Ref.float_of_int Ref.to_number
              Example.cities Example.cities_frame eq_refl)
    as (tbody & Ht & H).
  cbn in Ht. injection Ht as <-. apply (H 1). cbn. lia.
Defined.

Lemma numbeo_series_no_full_year_witness :
  numbeo_series Ref.float_of_int Ref.to_number Ref.py_int
                (Example.serve Example.mid_page) Example.base []
  = (Raise ValueError, [Example.base]).
Proof.
  apply (numbeo_series_no_full_year _ Ref.float_of_int Ref.to_number
           Ref.py_int (Example.serve Example.mid_page) Example.base
           Example.mid_page Example.mid_years [] eq_refl eq_refl).
  cbn. repeat constructor.
Defined.

Lemma combined_frame_repeats_page_witness :
  exists years,
    Forall2 (fun l y => year_of Ref.py_int l = Ok y) Example.links years /\
    values (Example.cities_in 2020) ++ values (Example.cities_in 2019)
    = flat_map (fun y => map (fun row => row ++ [VInt y])
                             (values Example.cities_frame))
               years.
Proof.
  destruct (combined_frame_repeats_page _ Ref.float_of_int Ref.to_number
              Ref.py_int (Example.site Example.cities) Example.base []
              (repeat Example.base 3)
              (mkFrame ["Rank"; "City"; "Index"; "Year"]
                       [0; 1; 0; 1]%Z
                       (values (Example.cities_in 2020)
                        ++ values (Example.cities_in 2019)))
              eq_refl)
    as (html & year_links & raw & years & Hw & Hl & Hp & Hy & Hnew).
  injection Hw as <-. injection Hl as <-. injection Hp as <-.
  exists years. split; [exact Hy|].
  apply Hnew. cbn. intuition discriminate.
Defined.

Lemma combined_index_restarts_witness :
  [0; 1; 0; 1]%Z
  = flat_map (fun _ => map Z.of_nat (seq 0 2)) Example.links.
Proof.
  destruct (combined_index_restarts _ Ref.float_of_int Ref.to_number
              Ref.py_int (Example.site Example.cities) Example.base []
              (repeat Example.base 3)
              (mkFrame ["Rank"; "City"; "Index"; "Year"]
                       [0; 1; 0; 1]%Z
                       (values (Example.cities_in 2020)
                        ++ values (Example.cities_in 2019)))
              eq_refl)
    as (raw & year_links & Hp & (html & Hw & Hl) & Hi).
  injection Hw as <-. injection Hl as <-. injection Hp as <-.
  exact Hi.
Defined.

Lemma extract_zip_result_witness :
  exists d',
    Files.extract_zip Example.unzip "gdp.zip"
                      [("gdp.zip", "PK-gdp"); ("notes.txt", "mine")]
    = (Files.Done tt, d') /\
    Files.read "gdp.csv" d' = Some "gdp per year" /\
    Files.read "gdp.zip" d' = None /\
    Files.read "notes.txt" d' = Some "mine".
Proof.
  destruct (extract_zip_result Example.unzip "gdp" "PK-gdp" "API_GDP.csv"
              ["API_GDP_old.csv"]
              [("Metadata_Country.csv", "meta"); ("API_GDP.csv", "gdp per year");
               ("API_GDP_old.csv", "older")]
              [("gdp.zip", "PK-gdp"); ("notes.txt", "mine")]
              eq_refl eq_refl eq_refl eq_refl)
    as (content & d' & Hm & He & Hcsv & Hzip & _ & Hrest).
  injection Hm as <-. exists d'. split; [exact He|].
  split; [exact Hcsv|]. split; [exact Hzip|].
  rewrite (Hrest "notes.txt"); [reflexivity | discriminate ..].
Defined.

Lemma process_entry_skips_existing_witness :
  process_entry Ref.float_of_int Ref.to_number Ref.py_int
                (Example.site Example.cities)
                Example.download Example.unzip Example.to_csv
                "https://api.worldbank.org/v2/en/indicator/gdp gdp"
                Example.stocked
  = (Files.Done tt,
     Files.mkWorld [("gdp.csv", "kept")] [] [] [] [gitlink "gdp"]).
Proof.
  apply (process_entry_skips_existing _ Ref.float_of_int Ref.to_number
           Ref.py_int (Example.site Example.cities)
           Example.download Example.unzip Example.to_csv
           Example.bank "gdp" Example.stocked); reflexivity.
Defined.

Lemma process_entry_requests_witness :
  exists k,
    Files.requested
      (snd (process_entry Ref.float_of_int Ref.to_number Ref.py_int
                          (Example.site Example.cities)
                          Example.download Example.unzip Example.to_csv
                          "https://www.numbeo.com/cost-of-living/rankings.jsp cost"
                          Example.fresh))
    = [] ++ repeat Example.base k.
Proof.
  apply (process_entry_requests _ Ref.float_of_int Ref.to_number Ref.py_int
           (Example.site Example.cities)
           Example.download Example.unzip Example.to_csv
           "https://www.numbeo.com/cost-of-living/rankings.jsp cost"
           Example.base "cost" Example.fresh).
  reflexivity.
Defined.


Lemma run_manifest_trailing_newline_witness :
  run_manifest Ref.float_of_int Ref.to_number Ref.py_int
               (Example.site Example.cities)
               Example.download Example.unzip Example.to_csv
               ("https://api.worldbank.org/v2/en/indicator/gdp gdp"
                ++ String newline "")
               Example.stocked
  = (Files.Failed (Files.Exn ValueError),
     Files.mkWorld [("gdp.csv", "kept")] [] [] [] [gitlink "gdp"]).
Proof.
  apply (proj2 (run_manifest_trailing_newline _ Ref.float_of_int
                  Ref.to_number Ref.py_int (Example.site Example.cities)
                  Example.download Example.unzip Example.to_csv
                  "https://api.worldbank.org/v2/en/indicator/gdp gdp"
                  Example.stocked)).
  reflexivity.
Defined.




